(** * flask_lac: session-backed authentication state and route guards

    A shallow embedding of [flask_lac/user.py] (classes
    [AuthServiceResponse] and [User], decorator [role_required]) and of the
    [/logout] route of [build/lib/flask_lac/__init__.py].

    Python objects are values of [pyval]; the Flask session is a finite map
    from keys to values; code that touches the session, the error log or the
    network runs in a small state-and-exception monad [M].

    The constructor of [User] starts a daemon thread that re-verifies the
    token.  That thread shares the object with the request; it writes the
    field [_authenticated] only, and only to [False].  [User_init] gives the
    object as the constructor's own statements leave it, and
    [verify_periodically_first_pass] the flag of that object once the first
    pass of the thread is through: a later reader of the flag finds the one
    or the other. *)

From Stdlib Require Import ZArith String List Bool Lia Ascii.
From stdpp Require Import base option gmap strings fin_maps.

Set Warnings "-register-all".
Local Open Scope string_scope.
Local Open Scope Z_scope.

(** ** Python values *)

(** The values that can sit in the session mapping or in a JSON body.
    JSON numbers are restricted to integers. *)
Inductive pyval : Type :=
  | PNone
  | PBool (b : bool)
  | PInt (z : Z)
  | PStr (s : string)
  | PList (l : list pyval)
  | PDict (d : gmap string pyval).

(** [bool(v)]: Python truthiness. *)
Definition truthy (v : pyval) : bool :=
  match v with
  | PNone => false
  | PBool b => b
  | PInt z => negb (z =? 0)
  | PStr s => negb (String.eqb s "")
  | PList l => match l with [] => false | _ => true end
  | PDict d => match map_to_list d with [] => false | _ => true end
  end.

(** [v == "literal"]: only a [str] with the same characters is equal. *)
Definition py_eq_str (v : pyval) (s : string) : bool :=
  match v with
  | PStr s' => String.eqb s' s
  | _ => false
  end.

(** [v == False] / [v == True]: [bool] is a subclass of [int], so [0 == False]
    and [1 == True]. *)
Definition py_eq_bool (v : pyval) (b : bool) : bool :=
  match v with
  | PBool b' => Bool.eqb b' b
  | PInt z => z =? (if b then 1 else 0)
  | _ => false
  end.

(** [v is None]. *)
Definition is_None (v : pyval) : bool :=
  match v with PNone => true | _ => false end.

(** [d.get(k, fallback)] and [d.get(k)], on the lookup of [k] in [d]: a
    missing key reads as the fallback, which is [None] when not given. *)
Definition get_default (o : option pyval) (fallback : pyval) : pyval :=
  match o with
  | Some v => v
  | None => fallback
  end.

Definition get_or_None (o : option pyval) : pyval := get_default o PNone.

(** ** Naive datetimes *)

Record datetime : Type := mkDatetime {
  year : Z; month : Z; day : Z;
  hour : Z; minute : Z; second : Z; microsecond : Z }.

(** Lexicographic order on two lists of integers of the same length. *)
Fixpoint lex_lt (a b : list Z) : bool :=
  match a, b with
  | x :: a', y :: b' => (x <? y) || ((x =? y) && lex_lt a' b')
  | _, _ => false
  end.

Definition datetime_fields (d : datetime) : list Z :=
  [year d; month d; day d; hour d; minute d; second d; microsecond d].

(** [a < b] on naive datetimes: the field tuples are compared. *)
Definition datetime_lt (a b : datetime) : bool :=
  lex_lt (datetime_fields a) (datetime_fields b).

(** ** Builtins taken as an interface *)

(** [strptime s] is [datetime.strptime(s, "%a, %d %b %Y %H:%M:%S %Z")]
    ([None] when it raises [ValueError]); [int_of_str s] is [int(s)] on a
    [str] ([None] when it raises [ValueError]). *)
Class Builtins : Type := {
  strptime : string -> option datetime;
  int_of_str : string -> option Z }.

(** ** Exceptions, effects *)

Inductive request_error : Type :=
  | ConnectionError
  | HTTPError (status : Z).

(** A fragment of a message built by concatenation or an f-string; [StrOf v]
    stands for [str(v)]. *)
Inductive fragment : Type :=
  | Lit (s : string)
  | StrOf (v : pyval).

Inductive exn : Type :=
  | ValueError
  | TypeError
  | KeyError
  | AttributeError
  | RequestException (e : request_error)
  | HTTPException (code : Z) (description : list fragment)
  | PyException (message : list fragment).

Inductive result (A : Type) : Type :=
  | Ok (a : A)
  | Raise (e : exn).
Arguments Ok {A} a.
Arguments Raise {A} e.

(** One record of [logger.error]. *)
Inductive log_entry : Type :=
  | LogError (prefix : string) (detail : pyval)
  | LogFailure (prefix : string) (e : exn).

(** The fields of a [User] object. *)
Record User : Type := mkUser {
  _token : pyval;
  _expiry : option datetime;
  _info : pyval;
  _authenticated : bool }.

(** What a request handler can change: the session, the [user] attribute of
    [flask.g] (unset at first), the error log, and the POST requests sent to
    the auth service (URL and token of the JSON payload), oldest first. *)
Record world : Type := mkWorld {
  session : gmap string pyval;
  g_user : option User;
  errlog : list log_entry;
  sent : list (string * pyval) }.

Definition M (A : Type) : Type := world -> world * result A.

Definition ret {A} (a : A) : M A := fun w => (w, Ok a).

Definition raise {A} (e : exn) : M A := fun w => (w, Raise e).

Definition bind {A B} (m : M A) (k : A -> M B) : M B :=
  fun w => match m w with
           | (w', Ok a) => k a w'
           | (w', Raise e) => (w', Raise e)
           end.

Notation "'let*' x ':=' m 'in' k" := (bind m (fun x => k))
  (at level 10, x pattern, m at level 100, k at level 200).
Notation "'run' m 'then' k" := (bind m (fun _ => k))
  (at level 10, m at level 100, k at level 200).

Definition lift {A} (r : result A) : M A := fun w => (w, r).

(** [try: body / except ... as e: handler e] for the exception classes
    selected by [catches].  State changes made before the exception are
    kept. *)
Definition try_except {A} (catches : exn -> bool) (body : M A) (handler : exn -> M A)
  : M A :=
  fun w => match body w with
           | (w', Raise e) => if catches e then handler e w' else (w', Raise e)
           | r => r
           end.

(** [isinstance(e, requests.RequestException)] *)
Definition is_RequestException (e : exn) : bool :=
  match e with RequestException _ => true | _ => false end.

Definition is_AttributeError (e : exn) : bool :=
  match e with AttributeError => true | _ => false end.

Definition get_session : M (gmap string pyval) := fun w => (w, Ok (session w)).

Definition modify_session (f : gmap string pyval -> gmap string pyval) : M unit :=
  fun w => (mkWorld (f (session w)) (g_user w) (errlog w) (sent w), Ok tt).

(** [session[k] = v] *)
Definition session_set (k : string) (v : pyval) : M unit :=
  modify_session (insert k v).

(** [session.pop(k, None)], result dropped *)
Definition session_pop (k : string) : M unit :=
  modify_session (delete k).

(** [session.clear()] *)
Definition session_clear : M unit :=
  modify_session (fun _ => ∅).

Definition logger_error (e : log_entry) : M unit :=
  fun w => (mkWorld (session w) (g_user w) (errlog w ++ [e]) (sent w), Ok tt).

(** ** Flask and requests *)

(** [url_for(endpoint, **values)], kept symbolic. *)
Inductive location : Type :=
  | UrlFor (endpoint : string) (values : list (string * string)).

Inductive flask_response : Type :=
  | Redirect (target : location)
  | Page (content : string).

Definition url_for (endpoint : string) (values : list (string * string)) : location :=
  UrlFor endpoint values.

Definition redirect (target : location) : flask_response := Redirect target.

(** [abort(code, description=...)] *)
Definition abort {A} (code : Z) (description : list fragment) : M A :=
  raise (HTTPException code description).

(** A response of the auth service: status code and JSON body (an object). *)
Record http_response : Type := mkResponse {
  status_code_of : Z;
  json_of : gmap string pyval }.

Inductive http_outcome : Type :=
  | Unreachable
  | Responded (r : http_response).

(** What one request sees from outside: [datetime.now()], [request.url], and
    how the auth service answers a POST of [{"token": t}] to a URL. *)
Record request_env : Type := mkEnv {
  now : datetime;
  request_url : string;
  service : string -> pyval -> http_outcome }.

Definition AUTH_SERVICE_URL : string := "https://auth.luova.club".

(** [requests.post(url, json={"token": token})] *)
Definition requests_post (env : request_env) (url : string) (token : pyval)
  : M http_response :=
  fun w =>
    let w' := mkWorld (session w) (g_user w) (errlog w) (sent w ++ [(url, token)]) in
    match service env url token with
    | Unreachable => (w', Raise (RequestException ConnectionError))
    | Responded r => (w', Ok r)
    end.

(** [response.raise_for_status()] *)
Definition raise_for_status (r : http_response) : M unit :=
  if (400 <=? status_code_of r) && (status_code_of r <? 600)
  then raise (RequestException (HTTPError (status_code_of r)))
  else ret tt.

(** ** AuthServiceResponse *)

Record AuthServiceResponse : Type := mkAuthServiceResponse {
  _response : http_response;
  _json : gmap string pyval }.

(** What the [status_machine] property evaluates to: the redirect response
    it builds for ["TOKEN_EXPIRED"], or a value of the body. *)
Inductive status_value : Type :=
  | StatusRedirect (r : flask_response)
  | StatusField (v : pyval).

(** [status == "literal"]; a response object is equal to no string. *)
Definition status_eq_str (x : status_value) (s : string) : bool :=
  match x with
  | StatusRedirect _ => false
  | StatusField v => py_eq_str v s
  end.

Section Request.
Context {builtins : Builtins}.
Variable env : request_env.

(** [redirect(url_for("login", next=request.url))] *)
Definition login_redirect : flask_response :=
  redirect (url_for "login" [("next", request_url env)]).

(** The properties [status_code], [json], [status_machine] and [message]. *)
Definition status_code (self : AuthServiceResponse) : Z :=
  status_code_of (_response self).

Definition json (self : AuthServiceResponse) : gmap string pyval := _json self.

Definition status_machine (self : AuthServiceResponse) : status_value :=
  if py_eq_str (get_or_None (_json self !! "status_machine")) "TOKEN_EXPIRED"
  then StatusRedirect login_redirect
  else StatusField (get_default (_json self !! "status_machine") (PStr "ERROR")).

Definition message (self : AuthServiceResponse) : pyval :=
  get_default (_json self !! "message") (PStr "An error occurred.").

(** [AuthServiceResponse.__init__(response, hard_fail)].  The redirect built
    under the first test is a value that nothing receives. *)
Definition AuthServiceResponse_init (response : http_response) (hard_fail : bool)
  : M AuthServiceResponse :=
  let self := mkAuthServiceResponse response (json_of response) in
  let _ := if status_eq_str (status_machine self) "TOKEN_EXPIRED"
           then Some login_redirect else None in
  run (if status_eq_str (status_machine self) "INVALID"
       then run session_pop "token" then
            run session_set "modified" (PBool true) then
            abort 401 [Lit "Invalid token. Please log in again."]
       else ret tt) then
  run (if negb (status_code self =? 200)
          && negb (status_eq_str (status_machine self) "OK")
       then if hard_fail
            then raise (PyException [Lit "An error occurred: "; StrOf (message self)])
            else logger_error (LogError "An error occurred: " (message self))
       else ret tt) then
  ret self.

(** *** User *)

Definition set_token (self : User) (v : pyval) : User :=
  mkUser v (_expiry self) (_info self) (_authenticated self).
Definition set_expiry (self : User) (v : option datetime) : User :=
  mkUser (_token self) v (_info self) (_authenticated self).
Definition set_info (self : User) (v : pyval) : User :=
  mkUser (_token self) (_expiry self) v (_authenticated self).
Definition set_authenticated (self : User) (v : bool) : User :=
  mkUser (_token self) (_expiry self) (_info self) v.

(** What [_get_info] reads from a validated response:
    [json["user_info"]] if ["user_info" in json], else [None]. *)
Definition user_info_of (auth_response : AuthServiceResponse) : pyval :=
  match json auth_response !! "user_info" with
  | Some v => v
  | None => PNone
  end.

(** [User._get_info] *)
Definition _get_info (self : User) : M User :=
  try_except is_RequestException
    (let* response :=
       requests_post env (AUTH_SERVICE_URL ++ "/user_info") (_token self) in
     run raise_for_status response then
     let* auth_response := AuthServiceResponse_init response false in
     ret (set_info self (user_info_of auth_response)))
    (fun e =>
       run logger_error (LogFailure "Failed to retrieve user info: " e) then
       ret (set_info self PNone)).

(** [datetime.strptime(v, "%a, %d %b %Y %H:%M:%S %Z")] on a session value *)
Definition parse_expiry (v : pyval) : M datetime :=
  match v with
  | PStr s => match strptime s with
              | Some d => ret d
              | None => raise ValueError
              end
  | _ => raise TypeError
  end.

(** [User._start_token_verification]: a daemon thread is started on
    [verify_periodically] and the call returns at once; in the caller's
    thread nothing of the object, the session or the log has changed.  What
    the started thread then does to the object, on its own time, is
    [verify_periodically_first_pass] below. *)
Definition _start_token_verification (self : User) : M unit := ret tt.

(** [User.__init__].  The redirect responses it builds are dropped.  The
    result is the object as the constructor's own statements leave it; on
    the path that sets [_authenticated = True] a verification thread has
    been started, which may set the flag of the same object to [False]
    later on, or before the caller looks. *)
Definition User_init : M User :=
  let self := mkUser PNone None PNone false in
  let* s := get_session in
  let '(self, _go_on) :=
    match s !! "token" with
    | Some t => (set_token self t, true)
    | None => (set_info (set_authenticated self false) PNone, false)
    end in
  let* (self, _go_on) :=
    match s !! "expiry" with
    | Some v =>
        let* e := parse_expiry v in
        let self := set_expiry self (Some e) in
        if datetime_lt e (now env)
        then run session_set "logged_in" (PBool false) then
             ret (set_info (set_authenticated self false) PNone, false)
        else ret (self, true)
    | None => ret (self, _go_on)
    end in
  if _go_on
  then let* self := _get_info (set_authenticated self true) in
       run _start_token_verification self then
       ret self
  else ret self.

(** The [role] property. *)
Definition role (self : User) : result pyval :=
  if truthy (_info self)
  then match _info self with
       | PDict d => Ok (get_or_None (d !! "role"))
       | _ => Raise AttributeError
       end
  else Ok PNone.

(** [int(v)] *)
Definition py_int (v : pyval) : result Z :=
  match v with
  | PInt z => Ok z
  | PBool b => Ok (if b then 1 else 0)
  | PStr s => match int_of_str s with
              | Some z => Ok z
              | None => Raise ValueError
              end
  | _ => Raise TypeError
  end.

(** [User.is_authenticated]; the argument is [has_request_context()]. *)
Definition is_authenticated (has_request_context : bool) (self : User) : M bool :=
  if has_request_context
  then
    let* s := get_session in
    run (if is_None (get_or_None (s !! "logged_in"))
         then run session_set "logged_in" (PBool false) then
              session_set "modified" (PBool true)
         else ret tt) then
    let* s := get_session in
    match s !! "logged_in" with
    | None => raise KeyError
    | Some v => if py_eq_bool v false then ret false
                else ret (_authenticated self)
    end
  else ret (_authenticated self).

(** *** role_required *)

(** What the wrapper installed by [role_required] does with a request:
    call the wrapped handler and return its result, or answer itself. *)
Inductive decision : Type :=
  | CallHandler
  | Reply (r : flask_response).

Definition role_required_check (min_role : Z) (redirect_to : option string)
  : M decision :=
  let* user := User_init in
  let* authenticated := is_authenticated true user in
  if negb authenticated
  then ret (Reply login_redirect)
  else
    let* r := lift (role user) in
    let* allowed :=
      (if is_None r then ret false
       else let* n := lift (py_int r) in ret (min_role <=? n)) in
    if allowed then ret CallHandler
    else match redirect_to with
         | Some endpoint => ret (Reply (redirect (url_for endpoint [])))
         | None =>
             abort 403
               [Lit "You do not have permission to access this resource. Level required: ";
                StrOf (PInt min_role); Lit "."; Lit " Your role: "; StrOf r]
         end.

(** [role_required(min_role, redirect_to)(func)] *)
Definition role_required (min_role : Z) (redirect_to : option string)
    (func : M flask_response) : M flask_response :=
  let* d := role_required_check min_role redirect_to in
  match d with
  | CallHandler => func
  | Reply r => ret r
  end.

(** *** The [/logout] route *)

(** [_get_user()] inside a request context: [g.user], built with [User()]
    on first use. *)
Definition _get_user : M User :=
  fun w =>
    match g_user w with
    | Some u => (w, Ok u)
    | None =>
        match User_init w with
        | (w', Ok u) =>
            (mkWorld (session w') (Some u) (errlog w') (sent w'), Ok u)
        | (w', Raise e) => (w', Raise e)
        end
    end.

(** [current_user.<field> = ...]: the proxy resolves to [g.user] and the
    attribute is set on that object. *)
Definition set_current_user (f : User -> User) : M unit :=
  let* u := _get_user in
  fun w => (mkWorld (session w) (Some (f u)) (errlog w) (sent w), Ok tt).

(** The view function of [/logout]; what it prints is left out. *)
Definition logout (auth_service_url : string) : M flask_response :=
  run try_except (fun e => is_RequestException e || is_AttributeError e)
        (let* s := get_session in
         let token := get_or_None (s !! "token") in
         run (if truthy token
              then let* response :=
                     requests_post env (auth_service_url ++ "/logout") token in
                   raise_for_status response
              else ret tt) then
         run session_clear then
         run set_current_user (fun u => set_authenticated u false) then
         run set_current_user (fun u => set_token u PNone) then
         run set_current_user (fun u => set_expiry u None) then
         run set_current_user (fun u => set_info u PNone) then
         run session_set "token" PNone then
         run session_set "logged_in" (PBool false) then
         session_set "modified" (PBool true))
        (fun _ => ret tt) then
  ret (redirect (url_for "index" [])).

End Request.

(** ** LongToken *)

Module LongToken.

Record t : Type := mk {
  _token : pyval;
  _expiry : pyval }.

(** The properties [token] and [expiry]. *)
Definition token (self : t) : pyval := _token self.
Definition expiry (self : t) : pyval := _expiry self.

(** [LongToken.from_dict(data)] *)
Definition from_dict (data : gmap string pyval) : t :=
  mk (get_or_None (data !! "token")) (get_or_None (data !! "expiry")).

(** [to_dict()] *)
Definition to_dict (self : t) : gmap string pyval :=
  <["expiry" := _expiry self]> (<["token" := _token self]> ∅).

End LongToken.

(** ** The rest of [User], the guards and routes of the package *)

(** What a view function of the package returns: a string, which Flask
    sends as the body; [redirect(v)] for a value [v];
    or the redirect of [login], to
    [f"{auth_service_url}/authorize?app_id={app_id}&next={next}&scope=login"]
    with [next = url_for(callback, _external=True)]. *)
Inductive view_result : Type :=
  | Text (body : string)
  | RedirectValue (target : pyval)
  | RedirectAuthorize (auth_service_url app_id : string) (callback : string).

Section Package.
Context {builtins : Builtins}.
Variable env : request_env.

(** [self._info.get(key) if self._info else None], the body of the
    properties [username], [email], [role] and [permissions]. *)
Definition info_get (key : string) (self : User) : result pyval :=
  if truthy (_info self)
  then match _info self with
       | PDict d => Ok (get_or_None (d !! key))
       | _ => Raise AttributeError
       end
  else Ok PNone.

Definition username (self : User) : result pyval := info_get "username" self.
Definition email (self : User) : result pyval := info_get "email" self.
Definition permissions (self : User) : result pyval := info_get "permissions" self.

Definition long_token_url : string := AUTH_SERVICE_URL ++ "/long_token".
Definition verify_url : string := AUTH_SERVICE_URL ++ "/verify".

(** [User.get_long_token]; the warning it issues is left out. *)
Definition get_long_token (self : User) : M (option LongToken.t) :=
  try_except is_RequestException
    (let* response := requests_post env long_token_url (_token self) in
     run raise_for_status response then
     let* auth_response := AuthServiceResponse_init env response false in
     ret (Some (LongToken.from_dict (json auth_response))))
    (fun e =>
       run logger_error (LogFailure "Failed to retrieve long token: " e) then
       ret None).

(** [User._verify_token], run inside a request context.  The redirects it
    builds are dropped. *)
Definition _verify_token (self : User) : M User :=
  try_except is_RequestException
    (let* response := requests_post env verify_url (_token self) in
     run raise_for_status response then
     let* auth_response := AuthServiceResponse_init env response false in
     if negb (status_eq_str (status_machine env auth_response) "OK")
     then run session_set "logged_in" (PBool false) then
          ret (set_authenticated self false)
     else ret self)
    (fun e =>
       run logger_error (LogFailure "Failed to verify token: " e) then
       run session_set "logged_in" (PBool false) then
       ret (set_authenticated self false)).

(** How one pass of [_verify_token] ends on the thread started by
    [_start_token_verification].  That thread has no request context:
    reading [request.url] or touching [session] raises [RuntimeError]
    there, which nothing catches, so the thread ends. *)
Inductive thread_pass : Type :=
  | Confirmed
  | FlagDropped
  | ThreadEnded.

(** [User._verify_token] on that thread.  A failed POST or an error status
    is caught: the flag is set to [False], then the write to the session
    ends the thread.  For ["TOKEN_EXPIRED"] the [status_machine] property
    reads [request.url], and for ["INVALID"] the constructor of
    [AuthServiceResponse] pops from the session: both end the thread before
    the flag is touched.  Any other answer that is not ["OK"] sets the flag
    to [False]; ["OK"] leaves it, and the loop sleeps. *)
Definition _verify_token_on_thread (self : User) : thread_pass :=
  match service env verify_url (_token self) with
  | Unreachable => FlagDropped
  | Responded r =>
      if (400 <=? status_code_of r) && (status_code_of r <? 600)
      then FlagDropped
      else
        match status_machine env (mkAuthServiceResponse r (json_of r)) with
        | StatusRedirect _ => ThreadEnded
        | StatusField v =>
            if py_eq_str v "INVALID" then ThreadEnded
            else if py_eq_str v "OK" then Confirmed
            else FlagDropped
        end
  end.

(** The first pass of [verify_periodically]
    ([while self._authenticated: self._verify_token(); time.sleep(300)]):
    the object's flag once that pass is through. *)
Definition verify_periodically_first_pass (self : User) : bool :=
  if _authenticated self
  then match _verify_token_on_thread self with
       | FlagDropped => false
       | Confirmed | ThreadEnded => true
       end
  else false.

(** The wrapper installed by [login_required], inside a request context:
    [user] is the proxy of [_get_user()]. *)
Definition login_required_check : M decision :=
  let* user := _get_user env in
  let* authenticated := is_authenticated true user in
  if negb authenticated
  then ret (Reply (login_redirect env))
  else ret CallHandler.

(** [login_required(f)] *)
Definition login_required (f : M flask_response) : M flask_response :=
  let* d := login_required_check in
  match d with
  | CallHandler => f
  | Reply r => ret r
  end.

(** The view function of [/login]; [next_arg] is
    [request.args.get('next')].  Setting [session.modified] after the
    assignment changes no key of the session. *)
Definition login (auth_service_url app_id : string) (next_arg : pyval)
  : M view_result :=
  run session_set "next" next_arg then
  ret (RedirectAuthorize auth_service_url app_id "auth_callback").

(** The view function of [/auth_callback]; [token] is
    [request.args.get('token')].  [session.permanent = True] writes the key
    [_permanent] of the session. *)
Definition auth_callback (auth_service_url : string) (token : pyval)
  : M view_result :=
  let* response := requests_post env (auth_service_url ++ "/verify") token in
  let* validated :=
    try_except (fun _ => true)
      (let* auth_response := AuthServiceResponse_init env response true in
       ret (Some auth_response))
      (fun _ => ret None) in
  match validated with
  | None => ret (Text "Invalid token")
  | Some auth_response =>
      let expiry := get_or_None (json auth_response !! "expiry") in
      run (if truthy expiry
           then run session_set "_permanent" (PBool true) then
                session_set "expiry" expiry
           else ret tt) then
      run session_set "token" token then
      run session_set "logged_in" (PBool true) then
      run session_set "modified" (PBool true) then
      let* s := get_session in
      if truthy (get_or_None (s !! "next"))
      then ret (RedirectValue (get_or_None (s !! "next")))
      else ret (RedirectValue (PStr "/"))
  end.

End Package.

(** The failure of the 401 abort of [AuthServiceResponse]. *)
Definition invalid_token : exn :=
  HTTPException 401 [Lit "Invalid token. Please log in again."].

(** The world once a POST of [token] to [url] was sent. *)
Definition posted (w : world) (url : string) (token : pyval) : world :=
  mkWorld (session w) (g_user w) (errlog w) (sent w ++ [(url, token)]).

(** The session that an accepted [/auth_callback] leaves, for the body of
    the answer, the token and the session before. *)
Definition callback_session (body : gmap string pyval) (token : pyval)
    (s : gmap string pyval) : gmap string pyval :=
  <["modified" := PBool true]>
    (<["logged_in" := PBool true]>
       (<["token" := token]>
          (if truthy (get_or_None (body !! "expiry"))
           then <["expiry" := get_or_None (body !! "expiry")]>
                  (<["_permanent" := PBool true]> s)
           else s))).

(** Where an accepted [/auth_callback] redirects: the [next] of the session
    if it is truthy, else ["/"]. *)
Definition callback_target (s : gmap string pyval) : view_result :=
  if truthy (get_or_None (s !! "next"))
  then RedirectValue (get_or_None (s !! "next"))
  else RedirectValue (PStr "/").

(** The world at the start of the next request of the same browser: the
    session is kept, [g] is new. *)
Definition next_request (w : world) : world :=
  mkWorld (session w) None (errlog w) (sent w).

(** ** A reference instance of the builtins

    [strptime_rfc1123] reads the fixed-width form of the session's expiry,
    ["Thu, 05 Nov 2026 12:00:00 GMT"], and [int_of_decimal] reads an
    optionally signed run of ASCII digits.  Python accepts these strings with
    the same result (and some more spellings, which the instance rejects);
    the theorems below hold for every instance, the examples use this one. *)

Definition digit_of (c : ascii) : option Z :=
  let n := Z.of_N (N_of_ascii c) in
  if (48 <=? n) && (n <=? 57) then Some (n - 48) else None.

Fixpoint digits_value (acc : Z) (cs : list ascii) : option Z :=
  match cs with
  | [] => Some acc
  | c :: cs' =>
      match digit_of c with
      | Some d => digits_value (10 * acc + d) cs'
      | None => None
      end
  end.

Definition number_at (i n : nat) (s : string) : option Z :=
  digits_value 0 (list_ascii_of_string (substring i n s)).

Definition weekday_names : list string :=
  ["Mon"; "Tue"; "Wed"; "Thu"; "Fri"; "Sat"; "Sun"].

Definition month_names : list string :=
  ["Jan"; "Feb"; "Mar"; "Apr"; "May"; "Jun";
   "Jul"; "Aug"; "Sep"; "Oct"; "Nov"; "Dec"].

Fixpoint index_of (x : string) (l : list string) (i : Z) : option Z :=
  match l with
  | [] => None
  | y :: l' => if String.eqb x y then Some i else index_of x l' (i + 1)
  end.

Definition is_leap (y : Z) : bool :=
  ((y mod 4 =? 0) && negb (y mod 100 =? 0)) || (y mod 400 =? 0).

Definition days_in_month (y m : Z) : Z :=
  if m =? 2 then (if is_leap y then 29 else 28)
  else if (m =? 4) || (m =? 6) || (m =? 9) || (m =? 11) then 30
  else 31.

Definition strptime_rfc1123 (s : string) : option datetime :=
  if negb (Nat.eqb (String.length s) 29) then None
  else if negb (String.eqb (substring 3 2 s) ", ") then None
  else if negb (String.eqb (substring 7 1 s) " ") then None
  else if negb (String.eqb (substring 11 1 s) " ") then None
  else if negb (String.eqb (substring 16 1 s) " ") then None
  else if negb (String.eqb (substring 19 1 s) ":") then None
  else if negb (String.eqb (substring 22 1 s) ":") then None
  else if negb (String.eqb (substring 25 1 s) " ") then None
  else if negb (String.eqb (substring 26 3 s) "GMT"
                || String.eqb (substring 26 3 s) "UTC") then None
  else
    match index_of (substring 0 3 s) weekday_names 0,
          number_at 5 2 s,
          index_of (substring 8 3 s) month_names 1,
          number_at 12 4 s,
          number_at 17 2 s, number_at 20 2 s, number_at 23 2 s with
    | Some _, Some d, Some mo, Some y, Some h, Some mi, Some sec =>
        if (1 <=? y) && (1 <=? d) && (d <=? days_in_month y mo)
           && (h <=? 23) && (mi <=? 59) && (sec <=? 59)
        then Some (mkDatetime y mo d h mi sec 0)
        else None
    | _, _, _, _, _, _, _ => None
    end.

Definition int_of_decimal (s : string) : option Z :=
  match list_ascii_of_string s with
  | [] => None
  | c :: cs =>
      if Ascii.eqb c "-"%char
      then match cs with [] => None | _ => Z.opp <$> digits_value 0 cs end
      else if Ascii.eqb c "+"%char
      then match cs with [] => None | _ => digits_value 0 cs end
      else digits_value 0 (c :: cs)
  end.

#[global] Instance reference_builtins : Builtins :=
  {| strptime := strptime_rfc1123; int_of_str := int_of_decimal |}.

(** ** Concrete inputs for the examples *)

(** Wednesday 4 November 2026, noon. *)
Definition example_now : datetime := mkDatetime 2026 11 4 12 0 0 0.

Definition yesterday : string := "Tue, 03 Nov 2026 12:00:00 GMT".
Definition this_instant : string := "Wed, 04 Nov 2026 12:00:00 GMT".
Definition tomorrow : string := "Thu, 05 Nov 2026 12:00:00 GMT".

Definition example_url : string := "https://app.example/admin".

(** An auth service that cannot be reached. *)
Definition offline : string -> pyval -> http_outcome := fun _ _ => Unreachable.

(** An auth service that answers every POST with status [code] and [body]. *)
Definition answering (code : Z) (body : gmap string pyval)
  : string -> pyval -> http_outcome :=
  fun _ _ => Responded (mkResponse code body).

Definition ok_body (role_value : pyval) : gmap string pyval :=
  {[ "status_machine" := PStr "OK";
     "user_info" := PDict {[ "username" := PStr "a"; "role" := role_value ]} ]}.

Definition env_offline : request_env := mkEnv example_now example_url offline.

Definition env_role (role_value : pyval) : request_env :=
  mkEnv example_now example_url (answering 200 (ok_body role_value)).

(** The start of a request with session [s]: [g.user] unset, nothing logged,
    nothing sent. *)
Definition fresh (s : gmap string pyval) : world := mkWorld s None [] [].

Definition logged_in_session : gmap string pyval :=
  {[ "token" := PStr "abc"; "expiry" := PStr tomorrow; "logged_in" := PBool true ]}.

(** The world after the constructor of [User] has found the expiry in the
    past: [logged_in] is written as [False]. *)
Definition expired_world (w : world) : world :=
  mkWorld (<["logged_in" := PBool false]> (session w)) (g_user w) (errlog w) (sent w).

(** The world after [is_authenticated] has found no [logged_in] in the
    session: [logged_in] is written as [False], the session marked modified. *)
Definition marked (w : world) : world :=
  mkWorld (<["modified" := PBool true]> (<["logged_in" := PBool false]> (session w)))
          (g_user w) (errlog w) (sent w).

(** An auth service that accepts every token and gives it an expiry
    tomorrow. *)
Definition env_accepting : request_env :=
  mkEnv example_now example_url
        (answering 200 {[ "status_machine" := PStr "OK";
                          "expiry" := PStr tomorrow ]}).

(** A session with an expiry in the past. *)
Definition expired_session : gmap string pyval :=
  {[ "token" := PStr "abc"; "expiry" := PStr yesterday;
     "logged_in" := PBool true ]}.

(** The [requests.RequestException] in which a POST followed by
    [raise_for_status()] ends, for an outcome of the POST: a failed
    connection, or a status code from 400 to 599. *)
Definition fetch_error (o : http_outcome) : option request_error :=
  match o with
  | Unreachable => Some ConnectionError
  | Responded r =>
      if (400 <=? status_code_of r) && (status_code_of r <? 600)
      then Some (HTTPError (status_code_of r))
      else None
  end.

Definition user_info_url : string := AUTH_SERVICE_URL ++ "/user_info".

(** An auth service whose [/user_info] ends as [o] while every other URL
    answers ["OK"]. *)
Definition profile_only (o : http_outcome) : string -> pyval -> http_outcome :=
  fun url _ =>
    if String.eqb url user_info_url then o
    else Responded (mkResponse 200 {[ "status_machine" := PStr "OK" ]}).

(** [/user_info] cannot be reached; [/verify] answers ["OK"]. *)
Definition env_profile_down : request_env :=
  mkEnv example_now example_url (profile_only Unreachable).

(** [/user_info] answers 503; [/verify] answers ["OK"]. *)
Definition env_profile_503 : request_env :=
  mkEnv example_now example_url (profile_only (Responded (mkResponse 503 ∅))).

(** The 403 failure of [role_required]: its description reports the required
    level, then the user's role. *)
Definition forbidden (min_role : Z) (r : pyval) : exn :=
  HTTPException 403
    [Lit "You do not have permission to access this resource. Level required: ";
     StrOf (PInt min_role); Lit "."; Lit " Your role: "; StrOf r].

(** The user that the auth service of [env_role r] describes, as built from
    [logged_in_session]. *)
Definition example_user (r : pyval) : User :=
  mkUser (PStr "abc") (Some (mkDatetime 2026 11 5 12 0 0 0))
         (PDict {[ "username" := PStr "a"; "role" := r ]}) true.

(** The world after that user was built from [logged_in_session]. *)
Definition fetched_world : world :=
  mkWorld logged_in_session None [] [(user_info_url, PStr "abc")].

(** The session that [logout] writes after clearing it. *)
Definition logged_out_session : gmap string pyval :=
  <["modified" := PBool true]>
    (<["logged_in" := PBool false]> (<["token" := PNone]> ∅)).

(** * Properties *)

Example strptime_rfc1123_example :
  strptime_rfc1123 "Thu, 05 Nov 2026 12:00:00 GMT"
  = Some (mkDatetime 2026 11 5 12 0 0 0).
Proof. reflexivity. Qed.

Example strptime_rfc1123_rejects :
  strptime_rfc1123 "2026-11-05T12:00:00" = None
  /\ strptime_rfc1123 "Thu, 31 Feb 2026 12:00:00 GMT" = None.
Proof. split; reflexivity. Qed.

Example int_of_decimal_example :
  int_of_decimal "42" = Some 42 /\ int_of_decimal "-7" = Some (-7)
  /\ int_of_decimal "admin" = None.
Proof. repeat split; reflexivity. Qed.

(** ** The order on datetimes *)

Arguments datetime_lt : simpl never.

Lemma lex_lt_irrefl (a : list Z) : lex_lt a a = false.
Proof.
  induction a as [|x a IH]; simpl; [reflexivity|].
  rewrite Z.ltb_irrefl, Z.eqb_refl, IH. reflexivity.
Qed.

Lemma lex_lt_asym (a b : list Z) : lex_lt a b = true -> lex_lt b a = false.
Proof.
  revert b. induction a as [|x a IH]; intros [|y b]; simpl; try discriminate.
  intros H. apply orb_true_iff in H. destruct H as [H|H].
  - apply Z.ltb_lt in H.
    replace (y <? x) with false by (symmetry; apply Z.ltb_ge; lia).
    replace (y =? x) with false by (symmetry; apply Z.eqb_neq; lia).
    reflexivity.
  - apply andb_true_iff in H. destruct H as [Hxy Hab].
    apply Z.eqb_eq in Hxy. subst y.
    rewrite Z.ltb_irrefl, Z.eqb_refl. simpl. apply IH, Hab.
Qed.

Lemma datetime_lt_irrefl (d : datetime) : datetime_lt d d = false.
Proof. apply lex_lt_irrefl. Qed.

Lemma datetime_lt_asym (a b : datetime) :
  datetime_lt a b = true -> datetime_lt b a = false.
Proof. apply lex_lt_asym. Qed.

(** ** AuthServiceResponse *)

Section ResponseProperties.
Context {builtins : Builtins}.
Variable env : request_env.

(** Comparing the [status_machine] property with a literal other than
    ["TOKEN_EXPIRED"] and ["ERROR"] tests the body's field. *)
Lemma status_eq_str_true (self : AuthServiceResponse) (s : string) :
  s <> "TOKEN_EXPIRED" -> s <> "ERROR" ->
  status_eq_str (status_machine env self) s = true
  <-> _json self !! "status_machine" = Some (PStr s).
Proof.
  intros Hexp Herr. unfold status_machine, get_or_None.
  destruct (_json self !! "status_machine") as [v|] eqn:E;
    cbn [get_default py_eq_str status_eq_str].
  - destruct v; cbn [py_eq_str status_eq_str];
      try (split; [discriminate | intros [=]]).
    destruct (String.eqb s0 "TOKEN_EXPIRED") eqn:T;
      cbn [py_eq_str status_eq_str].
    + apply String.eqb_eq in T. subst s0.
      split; [discriminate | intros [= <-]; congruence].
    + rewrite String.eqb_eq. split; [congruence | intros [= ->]; reflexivity].
  - change (String.eqb "ERROR" s = true <-> None = Some (PStr s)).
    rewrite String.eqb_eq. split; [congruence | discriminate].
Qed.

Lemma status_eq_str_false (self : AuthServiceResponse) (s : string) :
  s <> "TOKEN_EXPIRED" -> s <> "ERROR" ->
  _json self !! "status_machine" <> Some (PStr s) ->
  status_eq_str (status_machine env self) s = false.
Proof.
  intros Hexp Herr Hne.
  destruct (status_eq_str (status_machine env self) s) eqn:E; [|reflexivity].
  apply status_eq_str_true in E; congruence.
Qed.

(** The property never evaluates to the string ["TOKEN_EXPIRED"]. *)
Lemma status_never_TOKEN_EXPIRED (self : AuthServiceResponse) :
  status_eq_str (status_machine env self) "TOKEN_EXPIRED" = false.
Proof.
  unfold status_machine, get_or_None.
  destruct (_json self !! "status_machine") as [v|];
    cbn [get_default py_eq_str status_eq_str]; [|reflexivity].
  destruct v; cbn [py_eq_str status_eq_str]; try reflexivity.
  destruct (String.eqb s "TOKEN_EXPIRED") eqn:T;
    cbn [py_eq_str status_eq_str]; [reflexivity | exact T].
Qed.

(** C5: a body with [status_machine = "INVALID"] makes the constructor pop
    [token] from the session (and mark it modified) and abort with 401,
    whatever [hard_fail] is; no object is returned. *)
Theorem AuthServiceResponse_init_INVALID
    (response : http_response) (hard_fail : bool) (w : world) :
  json_of response !! "status_machine" = Some (PStr "INVALID") ->
  AuthServiceResponse_init env response hard_fail w
  = (mkWorld (<["modified" := PBool true]> (delete "token" (session w)))
             (g_user w) (errlog w) (sent w),
     Raise (HTTPException 401 [Lit "Invalid token. Please log in again."]))
  /\ (<["modified" := PBool true]> (delete "token" (session w)) : gmap string pyval)
       !! "token" = None.
Proof.
  intros H. split.
  - unfold AuthServiceResponse_init.
    assert (E : status_eq_str
                  (status_machine env (mkAuthServiceResponse response (json_of response)))
                  "INVALID" = true)
      by (apply status_eq_str_true; [discriminate | discriminate | exact H]).
    rewrite E. reflexivity.
  - rewrite lookup_insert_ne by discriminate. apply lookup_delete_eq.
Qed.

(** C6: a response with a status code other than 200 whose
    [status_machine] is neither ["OK"] nor ["INVALID"] makes the constructor
    raise under [hard_fail = true]; under [hard_fail = false] it logs the
    error and returns the object, and the [user_info] read from a body
    without that key is [None]. *)
Theorem AuthServiceResponse_init_error_status (response : http_response) (w : world) :
  status_code_of response <> 200 ->
  json_of response !! "status_machine" <> Some (PStr "OK") ->
  json_of response !! "status_machine" <> Some (PStr "INVALID") ->
  let self := mkAuthServiceResponse response (json_of response) in
  AuthServiceResponse_init env response true w
  = (w, Raise (PyException [Lit "An error occurred: "; StrOf (message self)]))
  /\ AuthServiceResponse_init env response false w
     = (mkWorld (session w) (g_user w)
                (errlog w ++ [LogError "An error occurred: " (message self)])
                (sent w),
        Ok self)
  /\ (json_of response !! "user_info" = None -> user_info_of self = PNone).
Proof.
  intros Hcode Hok Hinv self.
  assert (Einv : status_eq_str (status_machine env self) "INVALID" = false)
    by (apply status_eq_str_false; [discriminate | discriminate | exact Hinv]).
  assert (Eok : status_eq_str (status_machine env self) "OK" = false)
    by (apply status_eq_str_false; [discriminate | discriminate | exact Hok]).
  assert (Ecode : (status_code self =? 200) = false)
    by (apply Z.eqb_neq; exact Hcode).
  repeat split.
  - unfold AuthServiceResponse_init. fold self.
    rewrite Einv, Eok, Ecode. destruct w; reflexivity.
  - unfold AuthServiceResponse_init. fold self.
    rewrite Einv, Eok, Ecode. reflexivity.
  - intros Hnone. unfold user_info_of, json. simpl. rewrite Hnone. reflexivity.
Qed.

End ResponseProperties.

Section StatusProperties.
Variable env : request_env.

(** For ["TOKEN_EXPIRED"] the property evaluates to the redirect response
    it builds, not to a string. *)
Lemma status_machine_TOKEN_EXPIRED (self : AuthServiceResponse) :
  _json self !! "status_machine" = Some (PStr "TOKEN_EXPIRED") ->
  status_machine env self = StatusRedirect (login_redirect env).
Proof. intros H. unfold status_machine. rewrite H. reflexivity. Qed.

(** C8, as amended: when the body's [status_machine] is not
    ["TOKEN_EXPIRED"], the property evaluates to that field unchanged, and
    to ["ERROR"] when the field is absent. *)
Theorem status_machine_passthrough (self : AuthServiceResponse) :
  _json self !! "status_machine" <> Some (PStr "TOKEN_EXPIRED") ->
  status_machine env self
  = StatusField (match _json self !! "status_machine" with
                 | Some v => v
                 | None => PStr "ERROR"
                 end).
Proof.
  intros H. unfold status_machine, get_or_None.
  destruct (_json self !! "status_machine") as [v|];
    cbn [get_default py_eq_str]; [|reflexivity].
  destruct v; cbn [py_eq_str]; try reflexivity.
  destruct (String.eqb s "TOKEN_EXPIRED") eqn:T; [|reflexivity].
  apply String.eqb_eq in T. congruence.
Qed.

End StatusProperties.

(** C8, witness: the bodies [{"status_machine": "OK"}] and [{}]. *)
Lemma status_machine_passthrough_witness :
  status_machine env_offline
    (mkAuthServiceResponse (mkResponse 200 {[ "status_machine" := PStr "OK" ]})
                           {[ "status_machine" := PStr "OK" ]})
  = StatusField (PStr "OK")
  /\ status_machine env_offline (mkAuthServiceResponse (mkResponse 200 ∅) ∅)
     = StatusField (PStr "ERROR").
Proof.
  split.
  - refine (eq_trans (status_machine_passthrough env_offline _ _) _);
      [vm_compute; discriminate | vm_compute; reflexivity].
  - refine (eq_trans (status_machine_passthrough env_offline _ _) _);
      [vm_compute; discriminate | vm_compute; reflexivity].
Defined.

(** C8, counterexample: for the body [{"status_machine": "FOO"}] the property
    evaluates to ["FOO"], which is none of the four tags. *)
Lemma status_machine_outside_tags :
  let self := mkAuthServiceResponse
                (mkResponse 200 {[ "status_machine" := PStr "FOO" ]})
                {[ "status_machine" := PStr "FOO" ]} in
  status_machine env_offline self = StatusField (PStr "FOO")
  /\ ~ (status_machine env_offline self = StatusField (PStr "OK")
        \/ status_machine env_offline self = StatusField (PStr "TOKEN_EXPIRED")
        \/ status_machine env_offline self = StatusField (PStr "INVALID")
        \/ status_machine env_offline self = StatusField (PStr "ERROR")).
Proof.
  split; [reflexivity|].
  intros [H|[H|[H|H]]]; vm_compute in H; discriminate H.
Qed.

(** C5, witness: a 200 response with body [{"status_machine": "INVALID"}],
    [hard_fail = true], session [{"token": "abc"}]. *)
Lemma AuthServiceResponse_init_INVALID_witness :
  AuthServiceResponse_init env_offline
    (mkResponse 200 {[ "status_machine" := PStr "INVALID" ]}) true
    (fresh {[ "token" := PStr "abc" ]})
  = (fresh {[ "modified" := PBool true ]},
     Raise (HTTPException 401 [Lit "Invalid token. Please log in again."])).
Proof.
  destruct (AuthServiceResponse_init_INVALID env_offline
              (mkResponse 200 {[ "status_machine" := PStr "INVALID" ]}) true
              (fresh {[ "token" := PStr "abc" ]})) as [H _].
  - reflexivity.
  - rewrite H. vm_compute. reflexivity.
Defined.

(** C6, witness: a 500 response with body [{"message": "boom"}]. *)
Lemma AuthServiceResponse_init_error_status_witness :
  AuthServiceResponse_init env_offline
    (mkResponse 500 {[ "message" := PStr "boom" ]}) true (fresh ∅)
  = (fresh ∅, Raise (PyException [Lit "An error occurred: "; StrOf (PStr "boom")]))
  /\ snd (AuthServiceResponse_init env_offline
            (mkResponse 500 {[ "message" := PStr "boom" ]}) false (fresh ∅))
     = Ok (mkAuthServiceResponse (mkResponse 500 {[ "message" := PStr "boom" ]})
                                 {[ "message" := PStr "boom" ]}).
Proof.
  destruct (AuthServiceResponse_init_error_status env_offline
              (mkResponse 500 {[ "message" := PStr "boom" ]}) (fresh ∅))
    as (H1 & H2 & _).
  - vm_compute. discriminate.
  - vm_compute. discriminate.
  - vm_compute. discriminate.
  - split; [rewrite H1 | rewrite H2]; reflexivity.
Defined.

(** ** User.is_authenticated *)

Section IsAuthenticated.

Lemma is_authenticated_absent (self : User) (w : world) :
  session w !! "logged_in" = None ->
  is_authenticated true self w = (marked w, Ok false).
Proof.
  intros H. unfold is_authenticated, bind, get_session, get_or_None.
  rewrite H. cbn.
  rewrite lookup_insert_ne by discriminate.
  rewrite lookup_insert_eq. reflexivity.
Qed.

Lemma is_authenticated_bool (self : User) (w : world) (b : bool) :
  session w !! "logged_in" = Some (PBool b) ->
  is_authenticated true self w
  = (w, Ok (if b then _authenticated self else false)).
Proof.
  intros H. unfold is_authenticated, bind, get_session, get_or_None.
  rewrite H. cbn. rewrite H. destruct b; reflexivity.
Qed.

(** For any value of [logged_in]: [None] counts as absent, a value equal to
    [False] gives [False], anything else lets the flag through. *)
Lemma is_authenticated_cases (self : User) (w : world) :
  is_authenticated true self w
  = match session w !! "logged_in" with
    | None | Some PNone => (marked w, Ok false)
    | Some v => (w, Ok (if py_eq_bool v false then false else _authenticated self))
    end.
Proof.
  unfold is_authenticated, bind, get_session, get_or_None.
  destruct (session w !! "logged_in") as [v|] eqn:H; cbn.
  - destruct v; cbn; rewrite ?H;
      try (rewrite lookup_insert_ne by discriminate; rewrite lookup_insert_eq);
      try reflexivity.
    + destruct b; reflexivity.
    + unfold py_eq_bool. destruct (z =? 0); reflexivity.
  - rewrite lookup_insert_ne by discriminate.
    rewrite lookup_insert_eq. reflexivity.
Qed.

(** C10: with a boolean or absent [logged_in], inside a request context
    [is_authenticated] returns [False] unless [logged_in] is [True], in
    which case it returns the [_authenticated] flag; an absent [logged_in]
    is written as [False] (and the session marked modified).  Outside a
    request context it returns the flag and leaves the session alone. *)
Theorem is_authenticated_logged_in (self : User) (w : world) (field : option bool) :
  session w !! "logged_in" = PBool <$> field ->
  is_authenticated true self w
  = (match field with None => marked w | Some _ => w end,
     Ok (match field with Some true => _authenticated self | _ => false end))
  /\ is_authenticated false self w = (w, Ok (_authenticated self)).
Proof.
  intros H. split; [|reflexivity].
  destruct field as [b|]; simpl in H.
  - rewrite (is_authenticated_bool self w b H). destruct b; reflexivity.
  - apply is_authenticated_absent, H.
Qed.

End IsAuthenticated.

(** C10, witness: a user whose flag is set, in a session without
    [logged_in]. *)
Lemma is_authenticated_logged_in_witness :
  is_authenticated true (mkUser (PStr "abc") None PNone true)
    (fresh {[ "token" := PStr "abc" ]})
  = (fresh {[ "token" := PStr "abc"; "logged_in" := PBool false;
              "modified" := PBool true ]},
     Ok false).
Proof.
  refine (eq_trans
            (proj1 (is_authenticated_logged_in
                      (mkUser (PStr "abc") None PNone true)
                      (fresh {[ "token" := PStr "abc" ]}) None _)) _).
  - reflexivity.
  - vm_compute. reflexivity.
Defined.

Example logged_out_returns_false :
  snd (is_authenticated true (mkUser (PStr "abc") None PNone true)
         (fresh {[ "token" := PStr "abc"; "logged_in" := PBool false ]}))
  = Ok false.
Proof. reflexivity. Qed.

Example logged_in_true_returns_flag :
  snd (is_authenticated true (mkUser (PStr "abc") None PNone true)
         (fresh {[ "token" := PStr "abc"; "logged_in" := PBool true ]}))
  = Ok true.
Proof. reflexivity. Qed.

(** ** User._get_info *)

Section GetInfo.
Context {builtins : Builtins}.
Variable env : request_env.

(** The three ways the constructor of [AuthServiceResponse] ends. *)
Lemma AuthServiceResponse_init_cases
    (response : http_response) (hard_fail : bool) (w : world) :
  let self := mkAuthServiceResponse response (json_of response) in
  AuthServiceResponse_init env response hard_fail w
  = if status_eq_str (status_machine env self) "INVALID"
    then (mkWorld (<["modified" := PBool true]> (delete "token" (session w)))
                  (g_user w) (errlog w) (sent w),
          Raise (HTTPException 401 [Lit "Invalid token. Please log in again."]))
    else if negb (status_code self =? 200)
            && negb (status_eq_str (status_machine env self) "OK")
    then if hard_fail
         then (w, Raise (PyException [Lit "An error occurred: "; StrOf (message self)]))
         else (mkWorld (session w) (g_user w)
                       (errlog w ++ [LogError "An error occurred: " (message self)])
                       (sent w),
               Ok self)
    else (w, Ok self).
Proof.
  intros self. unfold AuthServiceResponse_init. fold self.
  destruct (status_eq_str (status_machine env self) "INVALID"); [reflexivity|].
  destruct (negb (status_code self =? 200)
            && negb (status_eq_str (status_machine env self) "OK"));
    [destruct hard_fail|]; destruct w; reflexivity.
Qed.


(** Whenever [_get_info] returns, only [_info] of the object may have
    changed, and the session and [g.user] are as before. *)
Lemma _get_info_returns (self : User) (w w' : world) (u : User) :
  _get_info env self w = (w', Ok u) ->
  u = set_info self (_info u)
  /\ session w' = session w /\ g_user w' = g_user w
  /\ sent w' = (sent w ++ [(user_info_url, _token self)])%list.
Proof.
  unfold _get_info, try_except, bind, requests_post. fold user_info_url.
  destruct (service env user_info_url (_token self)) as [|r].
  - cbn. intros [= <- <-]. cbn. auto.
  - unfold raise_for_status.
    destruct ((400 <=? status_code_of r) && (status_code_of r <? 600)).
    + cbn. intros [= <- <-]. cbn. auto.
    + cbn [ret]. rewrite AuthServiceResponse_init_cases.
      destruct (status_eq_str _ "INVALID"); [cbn; discriminate|].
      destruct (_ && _); cbn; intros [= <- <-]; cbn; auto.
Qed.

End GetInfo.

(** ** User.__init__ *)

Section UserInit.
Context {builtins : Builtins}.
Variable env : request_env.

(** Starting the thread after a computation changes nothing of its result. *)
Lemma then_start_thread (m : M User) (w : world) :
  (let* self := m in run _start_token_verification self then ret self) w = m w.
Proof. unfold bind. destruct (m w) as [w' [u|e]]; reflexivity. Qed.

(** Without [expiry] in the session the token alone decides. *)
Lemma User_init_no_expiry (w : world) :
  session w !! "expiry" = None ->
  User_init env w
  = match session w !! "token" with
    | Some t => _get_info env (mkUser t None PNone true) w
    | None => (w, Ok (mkUser PNone None PNone false))
    end.
Proof.
  intros H. unfold User_init. unfold bind at 1. unfold get_session. rewrite H.
  destruct (session w !! "token"); [|reflexivity].
  unfold bind at 1. unfold ret at 1. apply then_start_thread.
Qed.

(** With a parseable [expiry] in the session the comparison with
    [datetime.now()] alone decides. *)
Lemma User_init_with_expiry (w : world) (s : string) (e : datetime) :
  session w !! "expiry" = Some (PStr s) ->
  strptime s = Some e ->
  User_init env w
  = if datetime_lt e (now env)
    then (expired_world w,
          Ok (mkUser (get_or_None (session w !! "token")) (Some e) PNone false))
    else _get_info env
           (mkUser (get_or_None (session w !! "token")) (Some e) PNone true) w.
Proof.
  intros H P. unfold User_init. unfold bind at 1. unfold get_session. rewrite H.
  destruct (session w !! "token"); cbn [get_or_None get_default];
    unfold bind at 1; unfold parse_expiry; rewrite P;
    unfold bind at 1; unfold ret at 1;
    (destruct (datetime_lt e (now env)); [reflexivity|]);
    unfold ret at 1; apply then_start_thread.
Qed.

(** An [expiry] that is not a string in the expected format makes the
    constructor raise. *)
Lemma User_init_bad_expiry (w : world) (v : pyval) :
  session w !! "expiry" = Some v ->
  (forall s, v = PStr s -> strptime s = None) ->
  exists e, User_init env w = (w, Raise e).
Proof.
  intros H P. unfold User_init, bind, get_session. rewrite H.
  destruct (session w !! "token"); cbn; destruct v; cbn; eauto;
    rewrite (P s eq_refl); cbn; eauto.
Qed.

(** C3: with [token] and a parseable [expiry] in the session, an expiry
    strictly earlier than now gives [authenticated = False], no profile, and
    [logged_in = False] in the session; an expiry equal to now is not
    expired: the constructor goes on to the profile fetch with
    [authenticated = True], and every user it returns is authenticated, the
    session untouched. *)
Theorem User_init_expired (w : world) (t : pyval) (s : string) (e : datetime) :
  session w !! "token" = Some t ->
  session w !! "expiry" = Some (PStr s) ->
  strptime s = Some e ->
  (datetime_lt e (now env) = true ->
   User_init env w = (expired_world w, Ok (mkUser t (Some e) PNone false))
   /\ session (expired_world w) !! "logged_in" = Some (PBool false))
  /\ (e = now env ->
      User_init env w = _get_info env (mkUser t (Some e) PNone true) w
      /\ forall w' u, User_init env w = (w', Ok u) ->
                      _authenticated u = true /\ session w' = session w).
Proof.
  intros Ht He P.
  pose proof (User_init_with_expiry w s e He P) as E.
  rewrite Ht in E. cbn [get_or_None get_default] in E. split.
  - intros L. rewrite L in E. split; [exact E|].
    unfold expired_world. cbn. apply lookup_insert_eq.
  - intros ->. rewrite datetime_lt_irrefl in E. split; [exact E|].
    intros w' u R. rewrite E in R.
    apply _get_info_returns in R. destruct R as (-> & S & _).
    split; [reflexivity | exact S].
Qed.


(** With [token] and a parseable [expiry] in the future, the profile fetch
    is attempted whatever its outcome: the POST is recorded even when the
    constructor raises out of the response validation. *)
Lemma User_init_attempts_fetch
    (w : world) (t : pyval) (s : string) (e : datetime) :
  session w !! "token" = Some t ->
  session w !! "expiry" = Some (PStr s) ->
  strptime s = Some e ->
  datetime_lt (now env) e = true ->
  sent (fst (User_init env w)) = (sent w ++ [(user_info_url, t)])%list.
Proof.
  intros Ht He P L.
  rewrite (User_init_with_expiry w s e He P), Ht. cbn [get_or_None get_default].
  rewrite (datetime_lt_asym _ _ L).
  unfold _get_info, try_except, bind, requests_post. fold user_info_url. cbn.
  destruct (service env user_info_url t) as [|r]; [reflexivity|].
  unfold raise_for_status.
  destruct ((400 <=? status_code_of r) && (status_code_of r <? 600));
    [reflexivity|].
  cbn [ret]. rewrite AuthServiceResponse_init_cases.
  destruct (status_eq_str _ "INVALID"); [reflexivity|].
  destruct (_ && _); reflexivity.
Qed.

(** C2, as amended: a returned user with [authenticated = True] comes from a
    session whose [expiry], if present, parsed to a time not earlier than
    now, and which has a [token] key if it has no [expiry]. *)
Theorem User_init_authenticated_inv (w w' : world) (u : User) :
  User_init env w = (w', Ok u) ->
  _authenticated u = true ->
  match session w !! "expiry" with
  | None => is_Some (session w !! "token") /\ _expiry u = None
  | Some v => exists s e, v = PStr s /\ strptime s = Some e
                          /\ _expiry u = Some e
                          /\ datetime_lt e (now env) = false
  end.
Proof.
  intros R A.
  destruct (session w !! "expiry") as [v|] eqn:He.
  - destruct v as [| | |s| |];
      try (destruct (User_init_bad_expiry w _ He) as [x X];
           [solve [intros ? [=]] | rewrite X in R; discriminate R]).
    destruct (strptime s) as [e|] eqn:P.
    + exists s, e. rewrite (User_init_with_expiry w s e He P) in R.
      destruct (datetime_lt e (now env)) eqn:L.
      * injection R as <- <-. discriminate A.
      * apply _get_info_returns in R. destruct R as (-> & _). cbn. auto.
    + destruct (User_init_bad_expiry w _ He) as [x X];
        [intros ? [= <-]; exact P | rewrite X in R; discriminate R].
  - rewrite (User_init_no_expiry w He) in R.
    destruct (session w !! "token") as [t|].
    + apply _get_info_returns in R. destruct R as (-> & _). cbn. eauto.
    + injection R as <- <-. discriminate A.
Qed.

End UserInit.

(** What does hold without a token: when the session has no [expiry] either,
    or an [expiry] in the past, the user is not authenticated and has no
    profile. *)
Lemma User_init_token_absent {builtins : Builtins} (env : request_env) (w : world) :
  session w !! "token" = None ->
  (session w !! "expiry" = None ->
   User_init env w = (w, Ok (mkUser PNone None PNone false)))
  /\ (forall s e, session w !! "expiry" = Some (PStr s) -> strptime s = Some e ->
                  datetime_lt e (now env) = true ->
                  User_init env w
                  = (expired_world w, Ok (mkUser PNone (Some e) PNone false))).
Proof.
  intros Ht. split.
  - intros He. rewrite (User_init_no_expiry env w He), Ht. reflexivity.
  - intros s e He P L.
    rewrite (User_init_with_expiry env w s e He P), Ht, L. reflexivity.
Qed.

(** Without a token but with an [expiry] that is not in the past, the
    constructor goes on as if a token were there: every user it returns is
    authenticated. *)
Lemma User_init_token_absent_goes_on
    {builtins : Builtins} (env : request_env) (w w' : world)
    (s : string) (e : datetime) (u : User) :
  session w !! "token" = None ->
  session w !! "expiry" = Some (PStr s) ->
  strptime s = Some e ->
  datetime_lt e (now env) = false ->
  User_init env w = (w', Ok u) ->
  _authenticated u = true /\ _token u = PNone.
Proof.
  intros Ht He P L R.
  rewrite (User_init_with_expiry env w s e He P), Ht, L in R.
  apply _get_info_returns in R. destruct R as (-> & _). split; reflexivity.
Qed.

(** C1, at the failing input: the session [{"expiry": <tomorrow>}] has no
    token, and the constructor returns an authenticated user, after posting
    the token [None] to [/user_info]; with a service that answers, the
    profile is set as well. *)
Theorem User_init_token_absent_expiry_future :
  User_init env_offline (fresh {[ "expiry" := PStr tomorrow ]})
  = (mkWorld {[ "expiry" := PStr tomorrow ]} None
             [LogFailure "Failed to retrieve user info: "
                         (RequestException ConnectionError)]
             [(user_info_url, PNone)],
     Ok (mkUser PNone (Some (mkDatetime 2026 11 5 12 0 0 0)) PNone true))
  /\ snd (User_init (env_role (PInt 3)) (fresh {[ "expiry" := PStr tomorrow ]}))
     = Ok (mkUser PNone (Some (mkDatetime 2026 11 5 12 0 0 0))
                  (PDict {[ "username" := PStr "a"; "role" := PInt 3 ]}) true).
Proof. split; vm_compute; reflexivity. Qed.

(** How a session without a token and with an expiry comes about: an
    ["INVALID"] answer pops [token] only and leaves [expiry] and [logged_in]
    in place; on the next request the constructor builds an authenticated
    user from what is left, and [is_authenticated] answers [True]. *)
Example forced_logout_then_authenticated :
  User_init (mkEnv example_now example_url
               (answering 200 {[ "status_machine" := PStr "INVALID" ]}))
    (fresh logged_in_session)
  = (mkWorld {[ "expiry" := PStr tomorrow; "logged_in" := PBool true;
                "modified" := PBool true ]} None []
             [(user_info_url, PStr "abc")],
     Raise (HTTPException 401 [Lit "Invalid token. Please log in again."]))
  /\ snd ((let* u := User_init env_profile_down in is_authenticated true u)
            (fresh {[ "expiry" := PStr tomorrow; "logged_in" := PBool true;
                      "modified" := PBool true ]}))
     = Ok true.
Proof. split; vm_compute; reflexivity. Qed.

(** C2, counterexample: the session [{"token": "abc", "logged_in": True}] has
    no [expiry]; the constructor returns an authenticated user whose expiry
    is [None]. *)
Lemma authenticated_without_expiry :
  exists w' u,
    User_init (env_role (PInt 3))
      (fresh {[ "token" := PStr "abc"; "logged_in" := PBool true ]}) = (w', Ok u)
    /\ _authenticated u = true
    /\ ~ (truthy (_token u) = true
          /\ exists e, _expiry u = Some e
                       /\ datetime_lt (now (env_role (PInt 3))) e = true).
Proof.
  eexists _, _. split; [vm_compute; reflexivity|].
  split; [reflexivity|].
  intros [_ [e [E _]]]. discriminate E.
Qed.

(** An expiry equal to now: the user is authenticated although the expiry is
    not strictly in the future. *)
Example authenticated_at_expiry :
  snd (User_init (env_role (PInt 3))
         (fresh {[ "token" := PStr "abc"; "expiry" := PStr this_instant ]}))
  = Ok (mkUser (PStr "abc") (Some example_now)
               (PDict {[ "username" := PStr "a"; "role" := PInt 3 ]}) true)
  /\ datetime_lt example_now example_now = false.
Proof. split; vm_compute; reflexivity. Qed.

(** C2, witness: the logged-in session with an expiry tomorrow. *)
Lemma User_init_authenticated_inv_witness :
  exists s e, PStr tomorrow = PStr s /\ strptime s = Some e
              /\ Some (mkDatetime 2026 11 5 12 0 0 0) = Some e
              /\ datetime_lt e example_now = false.
Proof.
  assert (R : User_init (env_role (PInt 3)) (fresh logged_in_session)
              = (mkWorld logged_in_session None [] [(user_info_url, PStr "abc")],
                 Ok (mkUser (PStr "abc") (Some (mkDatetime 2026 11 5 12 0 0 0))
                            (PDict {[ "username" := PStr "a"; "role" := PInt 3 ]})
                            true)))
    by (vm_compute; reflexivity).
  exact (User_init_authenticated_inv (env_role (PInt 3)) _ _ _ R eq_refl).
Defined.

(** C3, witness: a token with an expiry yesterday. *)
Lemma User_init_expired_witness :
  User_init env_offline
    (fresh {[ "token" := PStr "abc"; "expiry" := PStr yesterday;
              "logged_in" := PBool true ]})
  = (fresh {[ "token" := PStr "abc"; "expiry" := PStr yesterday;
              "logged_in" := PBool false ]},
     Ok (mkUser (PStr "abc") (Some (mkDatetime 2026 11 3 12 0 0 0)) PNone false)).
Proof.
  refine (eq_trans
            (proj1 (proj1 (User_init_expired env_offline
                             (fresh {[ "token" := PStr "abc"; "expiry" := PStr yesterday;
                                       "logged_in" := PBool true ]})
                             (PStr "abc") yesterday (mkDatetime 2026 11 3 12 0 0 0)
                             _ _ _) _)) _).
  - reflexivity.
  - reflexivity.
  - reflexivity.
  - reflexivity.
  - vm_compute. reflexivity.
Defined.

(** An expiry equal to now is not expired. *)
Example User_init_not_expired_at_now :
  User_init env_profile_down
    (fresh {[ "token" := PStr "abc"; "expiry" := PStr this_instant;
              "logged_in" := PBool true ]})
  = (mkWorld {[ "token" := PStr "abc"; "expiry" := PStr this_instant;
                "logged_in" := PBool true ]} None
             [LogFailure "Failed to retrieve user info: "
                         (RequestException ConnectionError)]
             [(user_info_url, PStr "abc")],
     Ok (mkUser (PStr "abc") (Some example_now) PNone true)).
Proof. vm_compute. reflexivity. Qed.

(** A 503 from [/user_info] is handled as a failed connection is. *)
Example fetch_failure_503 :
  User_init env_profile_503 (fresh logged_in_session)
  = (mkWorld logged_in_session None
             [LogFailure "Failed to retrieve user info: "
                         (RequestException (HTTPError 503))]
             [(user_info_url, PStr "abc")],
     Ok (mkUser (PStr "abc") (Some (mkDatetime 2026 11 5 12 0 0 0)) PNone true)).
Proof. vm_compute. reflexivity. Qed.

(** The scenario of a logged-in session and a service that answers with a
    profile. *)
Example User_init_scenario :
  snd (User_init (env_role (PInt 3)) (fresh logged_in_session))
  = Ok (mkUser (PStr "abc") (Some (mkDatetime 2026 11 5 12 0 0 0))
               (PDict {[ "username" := PStr "a"; "role" := PInt 3 ]}) true).
Proof. vm_compute. reflexivity. Qed.

(** ** role_required *)

Section RoleRequired.
Context {builtins : Builtins}.
Variable env : request_env.






End RoleRequired.

(** [role_required(3)] and a user with role 2: the decision is the 403 that
    reports level 3 and role 2. *)
Example role_required_3_role_2_decision :
  role_required_check (env_role (PInt 2)) 3 None (fresh logged_in_session)
  = (fetched_world, Raise (forbidden 3 (PInt 2))).
Proof. vm_compute. reflexivity. Qed.


(** [role_required(3)] with a fallback route and a user with role 2. *)
Example role_required_3_role_2_fallback :
  snd (role_required_check (env_role (PInt 2)) 3 (Some "home") (fresh logged_in_session))
  = Ok (Reply (Redirect (UrlFor "home" []))).
Proof. vm_compute. reflexivity. Qed.

(** [role_required(3)] lets users with role 3 and 4 through; the role may
    come as a string. *)
Example role_required_3_role_3_4 :
  snd (role_required_check (env_role (PInt 3)) 3 None (fresh logged_in_session))
  = Ok CallHandler
  /\ snd (role_required_check (env_role (PInt 4)) 3 None (fresh logged_in_session))
     = Ok CallHandler
  /\ snd (role_required_check (env_role (PStr "4")) 3 None (fresh logged_in_session))
     = Ok CallHandler.
Proof. repeat split; vm_compute; reflexivity. Qed.

(** The handler's own answer is returned for roles 3 and 4, and its own
    failure is the failure of the request. *)
Example role_required_3_role_3_handler :
  snd (role_required (env_role (PInt 3)) 3 None (ret (Page "admin"))
         (fresh logged_in_session))
  = Ok (Page "admin")
  /\ snd (role_required (env_role (PInt 4)) 3 None (ret (Page "admin"))
            (fresh logged_in_session))
     = Ok (Page "admin")
  /\ snd (role_required (env_role (PInt 4)) 3 None (raise KeyError)
            (fresh logged_in_session))
     = Raise KeyError.
Proof. repeat split; vm_compute; reflexivity. Qed.

(** With a fallback route the handler is not run for role 2 either. *)
Example role_required_3_role_2_handler_fallback :
  snd (role_required (env_role (PInt 2)) 3 (Some "home") (ret (Page "admin"))
         (fresh logged_in_session))
  = Ok (Redirect (UrlFor "home" [])).
Proof. vm_compute. reflexivity. Qed.

(** An empty session: the guard redirects to [login] with the request URL as
    [next]. *)
Example role_required_empty_session :
  snd (role_required_check (env_role (PInt 4)) 3 None (fresh ∅))
  = Ok (Reply (Redirect (UrlFor "login" [("next", example_url)]))).
Proof. vm_compute. reflexivity. Qed.

(** A user without a profile is denied with role [None]. *)
Example role_required_no_profile :
  snd (role_required env_profile_down 3 None (ret (Page "admin"))
         (fresh logged_in_session))
  = Raise (forbidden 3 PNone).
Proof. vm_compute. reflexivity. Qed.

(** ** The [/logout] route *)

Section Logout.
Context {builtins : Builtins}.
Variable env : request_env.

(** When the external call raises, the rest of the [try] block is skipped:
    the session and [g.user] are as before. *)
Lemma logout_call_fails (auth_service_url : string) (w : world) (t : pyval)
    (err : request_error) :
  session w !! "token" = Some t ->
  truthy t = true ->
  fetch_error (service env (auth_service_url ++ "/logout") t) = Some err ->
  logout env auth_service_url w
  = (mkWorld (session w) (g_user w) (errlog w)
             (sent w ++ [(auth_service_url ++ "/logout", t)]),
     Ok (redirect (url_for "index" []))).
Proof.
  intros Ht T F. unfold logout, bind, try_except, get_session.
  rewrite Ht. cbn [get_or_None get_default]. rewrite T.
  unfold requests_post, fetch_error in *.
  destruct (service env (auth_service_url ++ "/logout") t) as [|r].
  - reflexivity.
  - unfold raise_for_status.
    destruct ((400 <=? status_code_of r) && (status_code_of r <? 600));
      [reflexivity | discriminate].
Qed.

(** The blank user built from an empty session. *)
Lemma User_init_empty_session (w : world) :
  session w = ∅ -> User_init env w = (w, Ok (mkUser PNone None PNone false)).
Proof.
  intros E. rewrite User_init_no_expiry by (rewrite E; apply lookup_empty).
  rewrite E, lookup_empty. reflexivity.
Qed.

(** When there is no external call to make, or it succeeds, the session is
    cleared and rewritten, and the fields of [g.user] are reset. *)
Lemma logout_call_succeeds (auth_service_url : string) (w : world) :
  let t := get_or_None (session w !! "token") in
  (truthy t = true ->
   fetch_error (service env (auth_service_url ++ "/logout") t) = None) ->
  logout env auth_service_url w
  = (mkWorld logged_out_session (Some (mkUser PNone None PNone false)) (errlog w)
             (if truthy t
              then sent w ++ [(auth_service_url ++ "/logout", t)]
              else sent w),
     Ok (redirect (url_for "index" []))).
Proof.
  intros t F. unfold logout, bind, try_except, get_session. fold t.
  assert (G : forall w0 : world,
             session w0 = ∅ ->
             (let* _ := set_current_user env (fun u => set_authenticated u false) in
              let* _ := set_current_user env (fun u => set_token u PNone) in
              let* _ := set_current_user env (fun u => set_expiry u None) in
              let* _ := set_current_user env (fun u => set_info u PNone) in
              let* _ := session_set "token" PNone in
              let* _ := session_set "logged_in" (PBool false) in
              session_set "modified" (PBool true)) w0
             = (mkWorld logged_out_session (Some (mkUser PNone None PNone false))
                        (errlog w0) (sent w0), Ok tt)).
  { intros w0 E. unfold bind, set_current_user, bind, _get_user.
    destruct (g_user w0) as [u0|] eqn:GU.
    - cbn. unfold logged_out_session. rewrite E. reflexivity.
    - rewrite (User_init_empty_session w0 E). cbn.
      unfold logged_out_session. rewrite E. reflexivity. }
  destruct (truthy t) eqn:T.
  - specialize (F eq_refl). unfold requests_post, fetch_error in *.
    destruct (service env (auth_service_url ++ "/logout") t) as [|r];
      [discriminate|].
    unfold raise_for_status.
    destruct ((400 <=? status_code_of r) && (status_code_of r <? 600));
      [discriminate|].
    cbn [ret session_clear modify_session].
    unfold bind in G. rewrite G by reflexivity. reflexivity.
  - cbn [ret session_clear modify_session].
    unfold bind in G. rewrite G by reflexivity. reflexivity.
Qed.

End Logout.

(** C9, at the failing input: a logged-in session, [g.user] the user built
    from it, and an auth service that cannot be reached.  The route answers
    with the redirect to [index]; the session still holds the token and
    [logged_in = True], and [g.user] is still authenticated. *)
Theorem logout_unreachable_keeps_session :
  logout env_offline AUTH_SERVICE_URL
    (mkWorld logged_in_session (Some (example_user (PInt 3))) [] [])
  = (mkWorld logged_in_session (Some (example_user (PInt 3))) []
             [(AUTH_SERVICE_URL ++ "/logout", PStr "abc")],
     Ok (Redirect (UrlFor "index" []))).
Proof. vm_compute. reflexivity. Qed.

(** The same request when the auth service answers the logout call. *)
Example logout_reachable_clears_session :
  logout (env_role (PInt 3)) AUTH_SERVICE_URL
    (mkWorld logged_in_session (Some (example_user (PInt 3))) [] [])
  = (mkWorld {[ "token" := PNone; "logged_in" := PBool false;
                "modified" := PBool true ]}
             (Some (mkUser PNone None PNone false)) []
             [(AUTH_SERVICE_URL ++ "/logout", PStr "abc")],
     Ok (Redirect (UrlFor "index" []))).
Proof. vm_compute. reflexivity. Qed.

(** * Further properties *)

(** ** LongToken *)

(** X1: [from_dict] reads back what [to_dict] wrote. *)
Theorem LongToken_from_dict_to_dict (x : LongToken.t) :
  LongToken.from_dict (LongToken.to_dict x) = x.
Proof.
  destruct x as [t e]. unfold LongToken.from_dict, LongToken.to_dict. cbn.
  rewrite lookup_insert_ne by discriminate.
  rewrite !lookup_insert_eq. reflexivity.
Qed.

(** X2: [to_dict] after [from_dict] keeps the keys [token] and [expiry] of a
    dictionary, reads a missing one as [None], and drops every other key. *)
Theorem LongToken_to_dict_from_dict (data : gmap string pyval) (k : string) :
  LongToken.to_dict (LongToken.from_dict data) !! k
  = if bool_decide (k = "token" \/ k = "expiry")
    then Some (get_or_None (data !! k))
    else None.
Proof.
  unfold LongToken.from_dict, LongToken.to_dict. cbn.
  destruct (decide (k = "expiry")) as [->|He].
  - rewrite lookup_insert_eq. rewrite bool_decide_eq_true_2 by auto. reflexivity.
  - rewrite lookup_insert_ne by congruence.
    destruct (decide (k = "token")) as [->|Ht].
    + rewrite lookup_insert_eq. rewrite bool_decide_eq_true_2 by auto. reflexivity.
    + rewrite lookup_insert_ne by congruence. rewrite lookup_empty.
      rewrite bool_decide_eq_false_2 by tauto. reflexivity.
Qed.

(** ** AuthServiceResponse: when the constructor returns *)

Section Validation.
Variable env : request_env.

(** X3: the constructor returns an object exactly when [status_machine] is
    not ["INVALID"] and the status code is 200, or [status_machine] is
    ["OK"], or [hard_fail] is off; the object wraps the response and the
    session is as before. *)
Theorem AuthServiceResponse_init_returns
    (response : http_response) (hard_fail : bool) (w : world) :
  ((exists w' a, AuthServiceResponse_init env response hard_fail w = (w', Ok a))
   <-> json_of response !! "status_machine" <> Some (PStr "INVALID")
       /\ (status_code_of response = 200
           \/ json_of response !! "status_machine" = Some (PStr "OK")
           \/ hard_fail = false))
  /\ (forall w' a,
        AuthServiceResponse_init env response hard_fail w = (w', Ok a) ->
        a = mkAuthServiceResponse response (json_of response)
        /\ session w' = session w /\ g_user w' = g_user w /\ sent w' = sent w).
Proof.
  pose (self := mkAuthServiceResponse response (json_of response)).
  pose proof (AuthServiceResponse_init_cases env response hard_fail w) as C.
  cbv zeta in C. fold self in C.
  pose proof (status_eq_str_true env self "INVALID"
                ltac:(discriminate) ltac:(discriminate)) as Iinv.
  pose proof (status_eq_str_true env self "OK"
                ltac:(discriminate) ltac:(discriminate)) as Iok.
  cbn [_json self] in Iinv, Iok.
  destruct (status_eq_str (status_machine env self) "INVALID") eqn:Einv.
  - split.
    + split.
      * intros (w' & a & R). rewrite C in R. discriminate R.
      * intros [N _]. exfalso. apply N, Iinv. reflexivity.
    + intros w' a R. rewrite C in R. discriminate R.
  - assert (Ninv : json_of response !! "status_machine" <> Some (PStr "INVALID"))
      by (intros X; apply Iinv in X; discriminate X).
    unfold status_code in C. cbn [_response self] in C.
    destruct (status_code_of response =? 200) eqn:Ecode; cbn [negb andb] in C.
    + apply Z.eqb_eq in Ecode. split.
      * split; [intros _; auto | intros _; eauto].
      * intros w' a R. rewrite C in R. injection R as <- <-. auto.
    + apply Z.eqb_neq in Ecode.
      destruct (status_eq_str (status_machine env self) "OK") eqn:Eok;
        cbn [negb] in C.
      * split.
        -- split; [intros _; split; [exact Ninv|]; right; left; apply Iok; reflexivity
                  | intros _; eauto].
        -- intros w' a R. rewrite C in R. injection R as <- <-. auto.
      * assert (Nok : json_of response !! "status_machine" <> Some (PStr "OK"))
          by (intros X; apply Iok in X; discriminate X).
        destruct hard_fail.
        -- split.
           ++ split.
              ** intros (w' & a & R). rewrite C in R. discriminate R.
              ** intros [_ [X|[X|X]]]; [contradiction | contradiction | discriminate X].
           ++ intros w' a R. rewrite C in R. discriminate R.
        -- split.
           ++ split; [intros _; auto | intros _; eauto].
           ++ intros w' a R. rewrite C in R. injection R as <- <-. cbn. auto.
Qed.

End Validation.

(** ** Calls to the auth service *)

Section ServiceCalls.
Context {builtins : Builtins}.
Variable env : request_env.

(** The pattern shared by the methods that ask the auth service something:
    POST, [raise_for_status], validation with [hard_fail=False], all inside
    [try/except RequestException]. *)
Lemma fetch_validate_cases {A : Type} (url : string) (token : pyval)
    (k : AuthServiceResponse -> M A) (h : exn -> M A) (w : world) :
  try_except is_RequestException
    (let* response := requests_post env url token in
     run raise_for_status response then
     let* auth_response := AuthServiceResponse_init env response false in
     k auth_response) h w
  = match service env url token with
    | Unreachable => h (RequestException ConnectionError) (posted w url token)
    | Responded r =>
        if (400 <=? status_code_of r) && (status_code_of r <? 600)
        then h (RequestException (HTTPError (status_code_of r))) (posted w url token)
        else try_except is_RequestException
               (let* auth_response := AuthServiceResponse_init env r false in
                k auth_response) h (posted w url token)
    end.
Proof.
  unfold try_except at 1. unfold bind at 1. unfold requests_post.
  destruct (service env url token) as [|r]; [reflexivity|].
  unfold bind at 1. unfold raise_for_status.
  destruct ((400 <=? status_code_of r) && (status_code_of r <? 600));
    reflexivity.
Qed.

(** Which exception an [expiry] that cannot be parsed raises. *)
Lemma User_init_unparsed (w : world) (v : pyval) :
  session w !! "expiry" = Some v ->
  (forall s, v = PStr s -> strptime s = None) ->
  User_init env w
  = (w, Raise (match v with PStr _ => ValueError | _ => TypeError end)).
Proof.
  intros H P. unfold User_init, bind, get_session. rewrite H.
  destruct (session w !! "token"); cbn; destruct v; cbn; try reflexivity;
    rewrite (P s eq_refl); reflexivity.
Qed.

(** [_get_info] raises only through the abort for ["INVALID"], with the
    token gone from the session. *)
Lemma _get_info_raises (self : User) (w w' : world) (e : exn) :
  _get_info env self w = (w', Raise e) ->
  e = invalid_token
  /\ session w' = <["modified" := PBool true]> (delete "token" (session w))
  /\ exists r, service env user_info_url (_token self) = Responded r
               /\ json_of r !! "status_machine" = Some (PStr "INVALID").
Proof.
  unfold _get_info. fold user_info_url. rewrite fetch_validate_cases.
  destruct (service env user_info_url (_token self)) as [|r]; [discriminate|].
  destruct ((400 <=? status_code_of r) && (status_code_of r <? 600));
    [discriminate|].
  unfold try_except, bind. rewrite AuthServiceResponse_init_cases.
  destruct (status_eq_str _ "INVALID") eqn:I.
  - cbn. intros [= <- <-]. cbn. repeat split.
    exists r. split; [reflexivity|].
    apply (status_eq_str_true env (mkAuthServiceResponse r (json_of r)) "INVALID");
      [discriminate | discriminate | exact I].
  - destruct (_ && _); discriminate.
Qed.

(** X4: the constructor of [User] raises only for an [expiry] it cannot
    parse, leaving the session as it was, or through the 401 abort of the
    profile fetch, which has removed [token] from the session.  A failure to
    reach the auth service never escapes it. *)
Theorem User_init_raises (w w' : world) (e : exn) :
  User_init env w = (w', Raise e) ->
  (w' = w /\ (e = ValueError \/ e = TypeError)
   /\ exists v, session w !! "expiry" = Some v
                /\ forall s, v = PStr s -> strptime s = None)
  \/ (e = invalid_token /\ session w' !! "token" = None
      /\ session w' !! "modified" = Some (PBool true)).
Proof.
  intros R.
  assert (G : forall self, _get_info env self w = (w', Raise e) ->
                e = invalid_token /\ session w' !! "token" = None
                /\ session w' !! "modified" = Some (PBool true)).
  { intros self X. apply _get_info_raises in X. destruct X as (-> & -> & _).
    split; [reflexivity|]. split.
    - rewrite lookup_insert_ne by discriminate. apply lookup_delete_eq.
    - apply lookup_insert_eq. }
  destruct (session w !! "expiry") as [v|] eqn:He.
  - assert (B : (forall s, v = PStr s -> strptime s = None) ->
                w' = w /\ (e = ValueError \/ e = TypeError)).
    { intros X. rewrite (User_init_unparsed w v He X) in R.
      injection R as <- <-. destruct v; auto. }
    destruct v as [| | |s| |];
      try (left; destruct B as [B1 B2]; [solve [intros ? [=]]|];
           split; [exact B1|]; split; [exact B2|];
           eexists; split; [reflexivity|]; intros ? [=]).
    destruct (strptime s) as [d|] eqn:P.
    + rewrite (User_init_with_expiry env w s d He P) in R.
      destruct (datetime_lt d (now env)); [discriminate R|].
      right. exact (G _ R).
    + left. destruct B as [B1 B2]; [intros ? [= <-]; exact P|].
      split; [exact B1|]. split; [exact B2|].
      eexists. split; [reflexivity|]. intros ? [= <-]. exact P.
  - rewrite (User_init_no_expiry env w He) in R.
    destruct (session w !! "token"); [|discriminate R].
    right. exact (G _ R).
Qed.

(** What the constructor leaves behind when it returns: the session as it
    was, or with [logged_in] written as [False] for a user that is not
    authenticated; [g.user] untouched. *)
Lemma User_init_returns (w w' : world) (u : User) :
  User_init env w = (w', Ok u) ->
  g_user w' = g_user w
  /\ ((session w' = session w
       /\ (_authenticated u = true \/ (_info u = PNone /\ sent w' = sent w)))
      \/ (session w' = <["logged_in" := PBool false]> (session w)
          /\ _authenticated u = false /\ _info u = PNone /\ sent w' = sent w)).
Proof.
  intros R.
  destruct (session w !! "expiry") as [v|] eqn:He.
  - destruct v as [| | |s| |];
      try (destruct (User_init_bad_expiry env w _ He) as [x X];
           [solve [intros ? [=]] | rewrite X in R; discriminate R]).
    destruct (strptime s) as [d|] eqn:P.
    + rewrite (User_init_with_expiry env w s d He P) in R.
      destruct (datetime_lt d (now env)).
      * injection R as <- <-. cbn. auto 10.
      * apply _get_info_returns in R. destruct R as (-> & S & G & _).
        cbn. auto.
    + destruct (User_init_bad_expiry env w _ He) as [x X];
        [intros ? [= <-]; exact P | rewrite X in R; discriminate R].
  - rewrite (User_init_no_expiry env w He) in R.
    destruct (session w !! "token").
    + apply _get_info_returns in R. destruct R as (-> & S & G & _). cbn. auto.
    + injection R as <- <-. cbn. auto 10.
Qed.

(** X5: a constructor that returns has changed no session key other than
    [logged_in], and [logged_in] only to [False], for a user that is not
    authenticated. *)
Theorem User_init_session_frame (w w' : world) (u : User) :
  User_init env w = (w', Ok u) ->
  (forall k, k <> "logged_in" -> session w' !! k = session w !! k)
  /\ (session w' !! "logged_in" = session w !! "logged_in"
      \/ (session w' !! "logged_in" = Some (PBool false)
          /\ _authenticated u = false)).
Proof.
  intros R. apply User_init_returns in R.
  destruct R as (_ & [(S & _)|(S & A & _)]); rewrite S.
  - auto.
  - split.
    + intros k K. apply lookup_insert_ne. congruence.
    + right. split; [apply lookup_insert_eq | exact A].
Qed.

(** On the path that sets the flag the constructor has POSTed to
    [/user_info]. *)
Lemma User_init_flag_sent (w w' : world) (u : User) :
  User_init env w = (w', Ok u) ->
  _authenticated u = true ->
  sent w' = (sent w ++ [(user_info_url, _token u)])%list.
Proof.
  intros R A.
  destruct (session w !! "expiry") as [v|] eqn:He.
  - destruct v as [| | |s| |];
      try (destruct (User_init_bad_expiry env w _ He) as [x X];
           [solve [intros ? [=]] | rewrite X in R; discriminate R]).
    destruct (strptime s) as [d|] eqn:P.
    + rewrite (User_init_with_expiry env w s d He P) in R.
      destruct (datetime_lt d (now env)).
      * injection R as <- <-. discriminate A.
      * apply _get_info_returns in R. destruct R as (-> & _ & _ & S). exact S.
    + destruct (User_init_bad_expiry env w _ He) as [x X];
        [intros ? [= <-]; exact P | rewrite X in R; discriminate R].
  - rewrite (User_init_no_expiry env w He) in R.
    destruct (session w !! "token").
    + apply _get_info_returns in R. destruct R as (-> & _ & _ & S). exact S.
    + injection R as <- <-. discriminate A.
Qed.

(** X6: a user that the constructor returns without having sent anything
    to the auth service is not authenticated and has no profile: the four
    profile properties read [None]. *)
Theorem User_init_without_request (w w' : world) (u : User) :
  User_init env w = (w', Ok u) ->
  sent w' = sent w ->
  _authenticated u = false
  /\ _info u = PNone
  /\ username u = Ok PNone /\ email u = Ok PNone
  /\ role u = Ok PNone /\ permissions u = Ok PNone.
Proof.
  intros R S.
  assert (A : _authenticated u = false).
  { destruct (_authenticated u) eqn:A; [|reflexivity].
    pose proof (User_init_flag_sent w w' u R A) as X. rewrite S in X.
    apply (f_equal (@length _)) in X. rewrite length_app in X. cbn in X. lia. }
  apply User_init_returns in R.
  assert (I : _info u = PNone).
  { destruct R as (_ & [(_ & [T|[X _]])|(_ & _ & X & _)]); [congruence | exact X | exact X]. }
  split; [exact A|]. split; [exact I|].
  unfold username, email, permissions, info_get, role. rewrite I. cbn. auto.
Qed.

End ServiceCalls.

(** ** The guards *)

Section Guards.
Context {builtins : Builtins}.
Variable env : request_env.

(** X7: [g.user] is built at most once in a request: asking for the current
    user twice is the same as asking once, in the result and in what is
    sent to the auth service. *)
Theorem _get_user_twice (w : world) :
  (let* _ := _get_user env in _get_user env) w = _get_user env w.
Proof.
  unfold bind, _get_user.
  destruct (g_user w) as [u|] eqn:G.
  - rewrite G. reflexivity.
  - destruct (User_init env w) as [w1 [u|e]]; reflexivity.
Qed.

(** X8: asking [is_authenticated] again gives the same answer and leaves
    the session as the first call left it. *)
Theorem is_authenticated_twice (ctx : bool) (self : User) (w : world) :
  (let* _ := is_authenticated ctx self in is_authenticated ctx self) w
  = is_authenticated ctx self w.
Proof.
  destruct ctx; [|reflexivity].
  unfold bind. rewrite (is_authenticated_cases self w).
  assert (Mk : is_authenticated true self (marked w) = (marked w, Ok false)).
  { rewrite is_authenticated_cases. unfold marked. cbn.
    rewrite lookup_insert_ne by discriminate. rewrite lookup_insert_eq.
    reflexivity. }
  destruct (session w !! "logged_in") as [v|] eqn:L; [|exact Mk].
  destruct v; try exact Mk;
    rewrite (is_authenticated_cases self w), L; reflexivity.
Qed.




End Guards.


(** A session without [logged_in] is sent to [login], with the request URL
    as [next]. *)
Example login_required_empty_session :
  snd (login_required_check (env_role (PInt 4)) (fresh ∅))
  = Ok (Reply (Redirect (UrlFor "login" [("next", example_url)]))).
Proof. vm_compute. reflexivity. Qed.

Example login_required_logged_in :
  snd (login_required_check (env_role (PInt 1)) (fresh logged_in_session))
  = Ok CallHandler.
Proof. vm_compute. reflexivity. Qed.

(** ** The routes *)

Section Callback.
Variable env : request_env.

Lemma callback_session_next (body : gmap string pyval) (token : pyval)
    (s : gmap string pyval) :
  callback_session body token s !! "next" = s !! "next".
Proof.
  unfold callback_session.
  rewrite !lookup_insert_ne by discriminate.
  destruct (truthy _); [|reflexivity].
  rewrite !lookup_insert_ne by discriminate. reflexivity.
Qed.

(** What [/auth_callback] does with an answer that passes the validation. *)
Lemma auth_callback_accepted (auth_service_url : string) (token : pyval)
    (w : world) (r : http_response) :
  service env (auth_service_url ++ "/verify") token = Responded r ->
  json_of r !! "status_machine" <> Some (PStr "INVALID") ->
  status_code_of r = 200 \/ json_of r !! "status_machine" = Some (PStr "OK") ->
  auth_callback env auth_service_url token w
  = (mkWorld (callback_session (json_of r) token (session w)) (g_user w)
             (errlog w) (sent w ++ [(auth_service_url ++ "/verify", token)]),
     Ok (callback_target (session w))).
Proof.
  intros S Ninv Acc. unfold auth_callback, bind at 1. unfold requests_post.
  rewrite S. unfold bind at 1. unfold try_except, bind at 1.
  rewrite AuthServiceResponse_init_cases.
  set (self := mkAuthServiceResponse r (json_of r)).
  rewrite (status_eq_str_false env self "INVALID")
    by (try discriminate; exact Ninv).
  assert (C : negb (status_code self =? 200)
              && negb (status_eq_str (status_machine env self) "OK") = false).
  { destruct Acc as [A|A].
    - unfold status_code. cbn. rewrite A. reflexivity.
    - apply (status_eq_str_true env self "OK") in A; try discriminate.
      rewrite A. apply andb_false_r. }
  rewrite C. cbn [ret]. unfold json. cbn [_json self].
  unfold callback_target, callback_session.
  destruct (truthy (get_or_None (json_of r !! "expiry")));
    unfold bind, session_set, modify_session, get_session, ret; cbn;
    rewrite !lookup_insert_ne by discriminate;
    destruct (truthy (get_or_None (session w !! "next"))); reflexivity.
Qed.

(** X10: an answer with status 200, or with [status_machine = "OK"], that is
    not ["INVALID"] logs the browser in: the token of the query string and
    [logged_in = True] are stored, a truthy [expiry] of the body is stored
    and an absent one leaves the session's as it was, keys the route does
    not name are untouched, and the redirect goes to the [next] of the
    session or to ["/"]. *)
Theorem auth_callback_logs_in (auth_service_url : string) (token : pyval)
    (w : world) (r : http_response) :
  service env (auth_service_url ++ "/verify") token = Responded r ->
  json_of r !! "status_machine" <> Some (PStr "INVALID") ->
  status_code_of r = 200 \/ json_of r !! "status_machine" = Some (PStr "OK") ->
  exists w',
    auth_callback env auth_service_url token w = (w', Ok (callback_target (session w)))
    /\ session w' !! "token" = Some token
    /\ session w' !! "logged_in" = Some (PBool true)
    /\ session w' !! "expiry"
       = (if truthy (get_or_None (json_of r !! "expiry"))
          then Some (get_or_None (json_of r !! "expiry"))
          else session w !! "expiry")
    /\ forall k, k <> "token" -> k <> "logged_in" -> k <> "modified" ->
                 k <> "expiry" -> k <> "_permanent" ->
                 session w' !! k = session w !! k.
Proof.
  intros S Ninv Acc. eexists. split.
  - exact (auth_callback_accepted auth_service_url token w r S Ninv Acc).
  - cbn [session]. unfold callback_session. repeat split.
    + rewrite lookup_insert_ne by discriminate.
      rewrite lookup_insert_ne by discriminate. apply lookup_insert_eq.
    + rewrite lookup_insert_ne by discriminate. apply lookup_insert_eq.
    + rewrite !lookup_insert_ne by discriminate.
      destruct (truthy _); [apply lookup_insert_eq | reflexivity].
    + intros k K1 K2 K3 K4 K5.
      rewrite !lookup_insert_ne by congruence.
      destruct (truthy _); [|reflexivity].
      rewrite !lookup_insert_ne by congruence. reflexivity.
Qed.

(** X11: when the auth service cannot be reached the route raises, and when
    the answer does not pass the validation it returns ["Invalid token"];
    either way [logged_in] is as before and the token of the query string is
    not stored: the session's [token] is as before, or removed. *)
Theorem auth_callback_refuses (auth_service_url : string) (token : pyval) (w : world) :
  (forall r, service env (auth_service_url ++ "/verify") token = Responded r ->
             json_of r !! "status_machine" = Some (PStr "INVALID")
             \/ (status_code_of r <> 200
                 /\ json_of r !! "status_machine" <> Some (PStr "OK"))) ->
  exists w',
    auth_callback env auth_service_url token w
    = (w', match service env (auth_service_url ++ "/verify") token with
           | Unreachable => Raise (RequestException ConnectionError)
           | Responded _ => Ok (Text "Invalid token")
           end)
    /\ session w' !! "logged_in" = session w !! "logged_in"
    /\ (session w' !! "token" = session w !! "token"
        \/ session w' !! "token" = None).
Proof.
  intros H. unfold auth_callback, bind at 1. unfold requests_post.
  destruct (service env (auth_service_url ++ "/verify") token) as [|r] eqn:S.
  - eexists. split; [reflexivity|]. cbn. auto.
  - specialize (H r eq_refl).
    unfold bind at 1. unfold try_except, bind at 1.
    rewrite AuthServiceResponse_init_cases.
    set (self := mkAuthServiceResponse r (json_of r)).
    destruct H as [I|[Nc Nok]].
    + apply (status_eq_str_true env self "INVALID") in I; try discriminate.
      rewrite I. eexists. split; [reflexivity|]. cbn. split.
      * rewrite lookup_insert_ne by discriminate.
        rewrite lookup_delete_ne by discriminate. reflexivity.
      * right. rewrite lookup_insert_ne by discriminate. apply lookup_delete_eq.
    + destruct (status_eq_str (status_machine env self) "INVALID").
      * eexists. split; [reflexivity|]. cbn. split.
        -- rewrite lookup_insert_ne by discriminate.
           rewrite lookup_delete_ne by discriminate. reflexivity.
        -- right. rewrite lookup_insert_ne by discriminate. apply lookup_delete_eq.
      * rewrite (status_eq_str_false env self "OK")
          by (try discriminate; exact Nok).
        unfold status_code. cbn [_response self].
        replace (status_code_of r =? 200) with false
          by (symmetry; apply Z.eqb_neq; exact Nc).
        eexists. split; [reflexivity|]. cbn. auto.
Qed.

End Callback.

(** ** The verification thread *)

Section Thread.
Context {builtins : Builtins}.
Variable env : request_env.

(** How a pass of the thread ends, by the body's [status_machine], once the
    POST to [/verify] has come back without an error status. *)
Lemma _verify_token_on_thread_answered (self : User) (r : http_response) :
  service env verify_url (_token self) = Responded r ->
  fetch_error (Responded r) = None ->
  _verify_token_on_thread env self
  = match json_of r !! "status_machine" with
    | Some (PStr s) =>
        if String.eqb s "TOKEN_EXPIRED" then ThreadEnded
        else if String.eqb s "INVALID" then ThreadEnded
        else if String.eqb s "OK" then Confirmed
        else FlagDropped
    | _ => FlagDropped
    end.
Proof.
  intros S F. unfold _verify_token_on_thread. rewrite S.
  unfold fetch_error in F.
  destruct ((400 <=? status_code_of r) && (status_code_of r <? 600));
    [discriminate F|].
  unfold status_machine, get_or_None. cbn [_json].
  destruct (json_of r !! "status_machine") as [v|];
    [|reflexivity].
  destruct v; try reflexivity.
  cbn [get_default py_eq_str].
  destruct (String.eqb s "TOKEN_EXPIRED"); reflexivity.
Qed.


(** An answer ["OK"] without an error status leaves the flag as it is. *)
Lemma verify_periodically_first_pass_OK (self : User) (r : http_response) :
  service env verify_url (_token self) = Responded r ->
  fetch_error (Responded r) = None ->
  json_of r !! "status_machine" = Some (PStr "OK") ->
  verify_periodically_first_pass env self = _authenticated self.
Proof.
  intros S F O. unfold verify_periodically_first_pass.
  rewrite (_verify_token_on_thread_answered self r S F), O. cbn.
  destruct (_authenticated self); reflexivity.
Qed.

(** The thread never sets the flag: a user that was not authenticated is
    not authenticated after the pass. *)
Lemma verify_periodically_first_pass_only_drops (self : User) :
  verify_periodically_first_pass env self = true -> _authenticated self = true.
Proof.
  unfold verify_periodically_first_pass.
  destruct (_authenticated self); [reflexivity | discriminate].
Qed.


End Thread.



(** There the flag stays: [/verify] answers ["OK"]. *)
Example flag_kept_while_verify_answers_OK :
  verify_periodically_first_pass env_profile_down
    (mkUser (PStr "abc") (Some (mkDatetime 2026 11 5 12 0 0 0)) PNone true)
  = true.
Proof. vm_compute. reflexivity. Qed.

(** The thread ends with the flag as it is on ["TOKEN_EXPIRED"] and on
    ["INVALID"], and drops it on any other answer that is not ["OK"]. *)
Example thread_pass_by_status :
  _verify_token_on_thread
    (mkEnv example_now example_url
           (answering 200 {[ "status_machine" := PStr "TOKEN_EXPIRED" ]}))
    (example_user (PInt 3)) = ThreadEnded
  /\ _verify_token_on_thread
       (mkEnv example_now example_url
              (answering 200 {[ "status_machine" := PStr "INVALID" ]}))
       (example_user (PInt 3)) = ThreadEnded
  /\ _verify_token_on_thread
       (mkEnv example_now example_url
              (answering 200 {[ "status_machine" := PStr "PENDING" ]}))
       (example_user (PInt 3)) = FlagDropped
  /\ _verify_token_on_thread
       (mkEnv example_now example_url (answering 200 ∅))
       (example_user (PInt 3)) = FlagDropped
  /\ _verify_token_on_thread (env_role (PInt 3)) (example_user (PInt 3))
     = Confirmed.
Proof. repeat split; vm_compute; reflexivity. Qed.

(** ** From one request to the next *)

Section Flows.
Context {builtins : Builtins}.
Variables env env' : request_env.


(** X12: the [next] that [/login] stores is where an accepted
    [/auth_callback] of a later request redirects; without a [next], or with
    an empty one, it redirects to ["/"]. *)
Theorem login_then_auth_callback
    (auth_service_url app_id : string) (next_arg token : pyval)
    (w : world) (r : http_response) :
  service env' (auth_service_url ++ "/verify") token = Responded r ->
  json_of r !! "status_machine" <> Some (PStr "INVALID") ->
  status_code_of r = 200 \/ json_of r !! "status_machine" = Some (PStr "OK") ->
  snd (login auth_service_url app_id next_arg w)
  = Ok (RedirectAuthorize auth_service_url app_id "auth_callback")
  /\ snd (auth_callback env' auth_service_url token
            (next_request (fst (login auth_service_url app_id next_arg w))))
     = Ok (RedirectValue (if truthy next_arg then next_arg else PStr "/")).
Proof.
  intros S Ninv Acc. split; [reflexivity|].
  rewrite (auth_callback_accepted env' auth_service_url token _ r S Ninv Acc).
  cbn. unfold callback_target. rewrite lookup_insert_eq. cbn.
  destruct (truthy next_arg); reflexivity.
Qed.



End Flows.

(** ** Token verification and the long token *)

Section TokenCalls.
Context {builtins : Builtins}.
Variable env : request_env.



End TokenCalls.

(** ** Instances *)

(** X4, witness: an expiry in ISO format. *)
Lemma User_init_raises_witness :
  (fresh {[ "expiry" := PStr "2026-11-05T12:00:00" ]}
   = fresh {[ "expiry" := PStr "2026-11-05T12:00:00" ]}
   /\ (ValueError = ValueError \/ ValueError = TypeError)
   /\ exists v, session (fresh {[ "expiry" := PStr "2026-11-05T12:00:00" ]})
                  !! "expiry" = Some v
                /\ forall s, v = PStr s -> strptime s = None)
  \/ (ValueError = invalid_token
      /\ session (fresh {[ "expiry" := PStr "2026-11-05T12:00:00" ]}) !! "token" = None
      /\ session (fresh {[ "expiry" := PStr "2026-11-05T12:00:00" ]}) !! "modified"
         = Some (PBool true)).
Proof.
  assert (R : User_init env_offline (fresh {[ "expiry" := PStr "2026-11-05T12:00:00" ]})
              = (fresh {[ "expiry" := PStr "2026-11-05T12:00:00" ]}, Raise ValueError))
    by (vm_compute; reflexivity).
  exact (User_init_raises env_offline _ _ _ R).
Defined.

(** X5, witness: the session with the expiry in the past. *)
Lemma User_init_session_frame_witness :
  (forall k, k <> "logged_in" ->
             session (expired_world (fresh expired_session)) !! k
             = session (fresh expired_session) !! k)
  /\ (session (expired_world (fresh expired_session)) !! "logged_in"
      = session (fresh expired_session) !! "logged_in"
      \/ (session (expired_world (fresh expired_session)) !! "logged_in"
          = Some (PBool false)
          /\ _authenticated
               (mkUser (PStr "abc") (Some (mkDatetime 2026 11 3 12 0 0 0)) PNone false)
             = false)).
Proof.
  assert (R : User_init env_offline (fresh expired_session)
              = (expired_world (fresh expired_session),
                 Ok (mkUser (PStr "abc") (Some (mkDatetime 2026 11 3 12 0 0 0))
                            PNone false)))
    by (vm_compute; reflexivity).
  exact (User_init_session_frame env_offline _ _ _ R).
Defined.

(** X6, witness: the session with the expiry in the past. *)
Lemma User_init_without_request_witness :
  _authenticated
    (mkUser (PStr "abc") (Some (mkDatetime 2026 11 3 12 0 0 0)) PNone false) = false
  /\ PNone = PNone
  /\ username (mkUser (PStr "abc") (Some (mkDatetime 2026 11 3 12 0 0 0)) PNone false)
     = Ok PNone
  /\ email (mkUser (PStr "abc") (Some (mkDatetime 2026 11 3 12 0 0 0)) PNone false)
     = Ok PNone
  /\ role (mkUser (PStr "abc") (Some (mkDatetime 2026 11 3 12 0 0 0)) PNone false)
     = Ok PNone
  /\ permissions (mkUser (PStr "abc") (Some (mkDatetime 2026 11 3 12 0 0 0)) PNone false)
     = Ok PNone.
Proof.
  assert (R : User_init env_offline (fresh expired_session)
              = (expired_world (fresh expired_session),
                 Ok (mkUser (PStr "abc") (Some (mkDatetime 2026 11 3 12 0 0 0))
                            PNone false)))
    by (vm_compute; reflexivity).
  exact (User_init_without_request env_offline _ _ _ R eq_refl).
Defined.

(** X10, witness: the callback with token ["abc"], a session that holds the
    [next] of [/login], and a service that accepts. *)
Lemma auth_callback_logs_in_witness :
  exists w',
    auth_callback env_accepting AUTH_SERVICE_URL (PStr "abc")
      (fresh {[ "next" := PStr "/admin" ]})
    = (w', Ok (RedirectValue (PStr "/admin")))
    /\ session w' !! "token" = Some (PStr "abc")
    /\ session w' !! "logged_in" = Some (PBool true)
    /\ session w' !! "expiry" = Some (PStr tomorrow).
Proof.
  destruct (auth_callback_logs_in env_accepting AUTH_SERVICE_URL (PStr "abc")
              (fresh {[ "next" := PStr "/admin" ]})
              (mkResponse 200 {[ "status_machine" := PStr "OK";
                                 "expiry" := PStr tomorrow ]}))
    as (w' & R & T & L & E & _).
  - reflexivity.
  - vm_compute. discriminate.
  - left. reflexivity.
  - exists w'. split; [exact R|]. split; [exact T|]. split; [exact L|]. exact E.
Defined.

(** X11, witness: the auth service cannot be reached. *)
Lemma auth_callback_refuses_witness :
  exists w',
    auth_callback env_offline AUTH_SERVICE_URL (PStr "abc") (fresh logged_in_session)
    = (w', Raise (RequestException ConnectionError))
    /\ session w' !! "logged_in" = Some (PBool true).
Proof.
  destruct (auth_callback_refuses env_offline AUTH_SERVICE_URL (PStr "abc")
              (fresh logged_in_session)) as (w' & R & L & _).
  - intros r H. discriminate H.
  - exists w'. split; [exact R | exact L].
Defined.

(** An answer with status 200 is accepted whatever its [status_machine]
    says, short of ["INVALID"]. *)
Example auth_callback_accepts_error_tag :
  snd (auth_callback
         (mkEnv example_now example_url
                (answering 200 {[ "status_machine" := PStr "ERROR" ]}))
         AUTH_SERVICE_URL (PStr "abc") (fresh ∅))
  = Ok (RedirectValue (PStr "/"))
  /\ session (fst (auth_callback
                     (mkEnv example_now example_url
                            (answering 200 {[ "status_machine" := PStr "ERROR" ]}))
                     AUTH_SERVICE_URL (PStr "abc") (fresh ∅)))
     = {[ "token" := PStr "abc"; "logged_in" := PBool true;
          "modified" := PBool true ]}.
Proof. split; vm_compute; reflexivity. Qed.

(** X12, witness: [/login?next=/admin], then the callback. *)
Lemma login_then_auth_callback_witness :
  snd (auth_callback env_accepting AUTH_SERVICE_URL (PStr "abc")
         (next_request (fst (login AUTH_SERVICE_URL "app" (PStr "/admin") (fresh ∅)))))
  = Ok (RedirectValue (PStr "/admin")).
Proof.
  refine (proj2 (login_then_auth_callback env_accepting AUTH_SERVICE_URL "app"
                   (PStr "/admin") (PStr "abc") (fresh ∅)
                   (mkResponse 200 {[ "status_machine" := PStr "OK";
                                      "expiry" := PStr tomorrow ]}) _ _ _)).
  - reflexivity.
  - vm_compute. discriminate.
  - left. reflexivity.
Defined.



(** After that logout the constructor still takes the session's [token],
    now [None], for a token and posts it to [/user_info]; the guard holds
    because [logged_in] is [False]. *)
Example logout_then_User_init :
  snd (User_init (env_role (PInt 4))
         (next_request (fst (logout (env_role (PInt 4)) AUTH_SERVICE_URL
                               (fresh logged_in_session)))))
  = Ok (mkUser PNone None (PDict {[ "username" := PStr "a"; "role" := PInt 4 ]}) true).
Proof. vm_compute. reflexivity. Qed.


(** A verification that cannot reach the auth service: the flag is dropped
    and [logged_in = False] is written. *)
Example _verify_token_unreachable :
  _verify_token env_offline (example_user (PInt 3)) (fresh logged_in_session)
  = (mkWorld {[ "token" := PStr "abc"; "expiry" := PStr tomorrow;
                "logged_in" := PBool false ]} None
             [LogFailure "Failed to verify token: " (RequestException ConnectionError)]
             [(verify_url, PStr "abc")],
     Ok (set_authenticated (example_user (PInt 3)) false)).
Proof. vm_compute. reflexivity. Qed.

(** An answer with ["TOKEN_EXPIRED"] and status 200 drops the flag as well. *)
Example _verify_token_TOKEN_EXPIRED :
  snd (_verify_token
         (mkEnv example_now example_url
                (answering 200 {[ "status_machine" := PStr "TOKEN_EXPIRED" ]}))
         (example_user (PInt 3)) (fresh logged_in_session))
  = Ok (set_authenticated (example_user (PInt 3)) false).
Proof. vm_compute. reflexivity. Qed.


Example get_long_token_unreachable :
  snd (get_long_token env_offline (example_user (PInt 3)) (fresh logged_in_session))
  = Ok None.
Proof. vm_compute. reflexivity. Qed.

(** ** A completed logout, a fetched profile *)

Section Outcomes.
Context {builtins : Builtins}.
Variable env : request_env.

(** X17: after a [/logout] that found no token, or whose call to the auth
    service went through, the session holds [token = None],
    [logged_in = False] and [modified = True] and no other key (the expiry
    and the stored [next] are gone), and [g.user] is a user without token,
    expiry and profile that is not authenticated. *)
Theorem logout_clears (auth_service_url : string) (w : world) (k : string) :
  (truthy (get_or_None (session w !! "token")) = true ->
   fetch_error (service env (auth_service_url ++ "/logout")
                  (get_or_None (session w !! "token"))) = None) ->
  snd (logout env auth_service_url w) = Ok (redirect (url_for "index" []))
  /\ g_user (fst (logout env auth_service_url w))
     = Some (mkUser PNone None PNone false)
  /\ session (fst (logout env auth_service_url w)) !! k
     = (if String.eqb k "token" then Some PNone
        else if String.eqb k "logged_in" then Some (PBool false)
        else if String.eqb k "modified" then Some (PBool true)
        else None).
Proof.
  intros H. rewrite (logout_call_succeeds env auth_service_url w H).
  cbn [fst snd session g_user]. split; [reflexivity|]. split; [reflexivity|].
  unfold logged_out_session.
  destruct (String.eqb k "token") eqn:T.
  - apply String.eqb_eq in T. subst k.
    rewrite !lookup_insert_ne by discriminate. apply lookup_insert_eq.
  - apply String.eqb_neq in T.
    destruct (String.eqb k "logged_in") eqn:L.
    + apply String.eqb_eq in L. subst k.
      rewrite lookup_insert_ne by discriminate. apply lookup_insert_eq.
    + apply String.eqb_neq in L.
      destruct (String.eqb k "modified") eqn:D.
      * apply String.eqb_eq in D. subst k. apply lookup_insert_eq.
      * apply String.eqb_neq in D.
        rewrite !lookup_insert_ne by congruence. apply lookup_empty.
Qed.

(** The profile properties of a user whose profile is a dictionary read its
    keys, a missing one as [None]. *)
Lemma info_get_dict (key : string) (t : pyval) (e : option datetime)
    (d : gmap string pyval) (a : bool) :
  info_get key (mkUser t e (PDict d) a) = Ok (get_or_None (d !! key)).
Proof.
  unfold info_get. cbn.
  destruct (map_to_list d) eqn:E; [|reflexivity].
  apply map_to_list_empty_iff in E. subst d. rewrite lookup_empty. reflexivity.
Qed.

(** X18: with a token, an expiry that is not in the past, and an answer to
    the profile fetch that has no error status, is not ["INVALID"] and
    carries a dictionary as [user_info], the constructor returns a user with
    that token, expiry and profile, whose [username], [email], [role] and
    [permissions] are the entries of that dictionary, [None] for a missing
    one; the session is untouched.  When [/verify] answers the thread ["OK"]
    without an error status, the user is authenticated and the first pass of
    the thread leaves it so. *)
Theorem User_init_profile (w : world) (t : pyval) (s : string) (e : datetime)
    (r : http_response) (d : gmap string pyval) :
  session w !! "token" = Some t ->
  session w !! "expiry" = Some (PStr s) ->
  strptime s = Some e ->
  datetime_lt e (now env) = false ->
  service env user_info_url t = Responded r ->
  fetch_error (Responded r) = None ->
  json_of r !! "status_machine" <> Some (PStr "INVALID") ->
  json_of r !! "user_info" = Some (PDict d) ->
  exists u,
    snd (User_init env w) = Ok u
    /\ _token u = t /\ _expiry u = Some e /\ _info u = PDict d
    /\ session (fst (User_init env w)) = session w
    /\ username u = Ok (get_or_None (d !! "username"))
    /\ email u = Ok (get_or_None (d !! "email"))
    /\ role u = Ok (get_or_None (d !! "role"))
    /\ permissions u = Ok (get_or_None (d !! "permissions"))
    /\ (forall rv,
          service env verify_url t = Responded rv ->
          fetch_error (Responded rv) = None ->
          json_of rv !! "status_machine" = Some (PStr "OK") ->
          _authenticated u = true
          /\ verify_periodically_first_pass env u = true).
Proof.
  intros Ht He P L S F Ninv Hinfo.
  assert (R : exists w', User_init env w
                         = (w', Ok (mkUser t (Some e) (PDict d) true))
                         /\ session w' = session w).
  { rewrite (User_init_with_expiry env w s e He P), L, Ht.
    cbn [get_or_None get_default].
    unfold _get_info. fold user_info_url. rewrite fetch_validate_cases.
    cbn [_token]. rewrite S. unfold fetch_error in F.
    destruct ((400 <=? status_code_of r) && (status_code_of r <? 600));
      [discriminate F|].
    unfold try_except, bind. rewrite AuthServiceResponse_init_cases.
    rewrite (status_eq_str_false env _ "INVALID") by (try discriminate; exact Ninv).
    destruct (negb (status_code _ =? 200) && _);
      cbn; unfold user_info_of, json; cbn; rewrite Hinfo;
      eexists; split; reflexivity. }
  destruct R as (w' & R & Sw). rewrite R. cbn [fst snd].
  exists (mkUser t (Some e) (PDict d) true).
  split; [reflexivity|]. split; [reflexivity|]. split; [reflexivity|].
  split; [reflexivity|]. split; [exact Sw|].
  unfold username, email, permissions. rewrite !info_get_dict.
  split; [reflexivity|]. split; [reflexivity|].
  split; [exact (info_get_dict "role" t (Some e) d true)|].
  split; [reflexivity|].
  intros rv Sv Fv Ov. split; [reflexivity|].
  rewrite (verify_periodically_first_pass_OK env
             (mkUser t (Some e) (PDict d) true) rv Sv Fv Ov).
  reflexivity.
Qed.

End Outcomes.

(** X17, witness: the logged-in session, with a stored [next], and an auth
    service that answers. *)
Lemma logout_clears_witness :
  session (fst (logout (env_role (PInt 3)) AUTH_SERVICE_URL
                  (fresh (<["next" := PStr "/admin"]> logged_in_session))))
    !! "expiry" = None
  /\ session (fst (logout (env_role (PInt 3)) AUTH_SERVICE_URL
                     (fresh (<["next" := PStr "/admin"]> logged_in_session))))
       !! "next" = None.
Proof.
  split.
  - refine (proj2 (proj2 (logout_clears (env_role (PInt 3)) AUTH_SERVICE_URL
                            (fresh (<["next" := PStr "/admin"]> logged_in_session))
                            "expiry" _))).
    intros _. reflexivity.
  - refine (proj2 (proj2 (logout_clears (env_role (PInt 3)) AUTH_SERVICE_URL
                            (fresh (<["next" := PStr "/admin"]> logged_in_session))
                            "next" _))).
    intros _. reflexivity.
Defined.

(** X18, witness: the logged-in session and a service that answers with a
    profile of role 3, and ["OK"] to the thread. *)
Lemma User_init_profile_witness :
  exists u,
    snd (User_init (env_role (PInt 3)) (fresh logged_in_session)) = Ok u
    /\ _info u = PDict {[ "username" := PStr "a"; "role" := PInt 3 ]}
    /\ username u = Ok (PStr "a")
    /\ role u = Ok (PInt 3)
    /\ permissions u = Ok PNone
    /\ _authenticated u = true
    /\ verify_periodically_first_pass (env_role (PInt 3)) u = true.
Proof.
  destruct (User_init_profile (env_role (PInt 3)) (fresh logged_in_session)
              (PStr "abc") tomorrow (mkDatetime 2026 11 5 12 0 0 0)
              (mkResponse 200 (ok_body (PInt 3)))
              {[ "username" := PStr "a"; "role" := PInt 3 ]})
    as (u & R & _ & _ & I & _ & U & _ & Ro & Pe & V).
  - reflexivity.
  - reflexivity.
  - reflexivity.
  - reflexivity.
  - reflexivity.
  - reflexivity.
  - vm_compute. discriminate.
  - reflexivity.
  - exists u. split; [exact R|]. split; [exact I|]. split; [exact U|].
    split; [exact Ro|]. split; [exact Pe|].
    apply (V (mkResponse 200 (ok_body (PInt 3)))); reflexivity.
Defined.
